(** * Aperture photometry on 2-D arrays: [photutils/aperture_funcs.py]

    A shallow embedding of [find_fluxvar], [do_circular_photometry],
    [do_elliptical_photometry] and [do_annulus_photometry], and the
    properties of them that the specification states.

    Modelling choices.
    - Pixel values, fluxes and variances are IEEE binary64 numbers, the
      [dtype] of the arrays the module allocates; they are Rocq's
      primitive floats, so NaN, division by zero and the square root of
      a negative number behave as they do in numpy.
    - Python exceptions are values of [exn]; a computation that may raise
      returns a [result].  The [AstropyUserWarning] of the photometer is
      the only warning that the module itself issues and is collected in
      a log.  The log is not the complete list of warnings of a run:
      numpy's own [RuntimeWarning]s (division by zero, overflow, invalid
      value) are not modelled, nor are the filters of [warnings].
    - Physical units ([astropy.units]) are left out: they do not change
      any numeric value or any branch taken.
    - The overlap primitives of [photutils.geometry] are parameters.
    - Element-wise numpy operations are defined on operands of one
      shape and raise on any other pair; numpy would in addition stretch
      an axis of length one.  [np.sum] adds in row-major order. *)

From Stdlib Require Import ZArith QArith Qround Ascii String Bool Lia.
From Stdlib Require Import Floats.PrimFloat Floats.SpecFloat.
From Stdlib Require Import Floats.FloatOps Floats.FloatAxioms.
From stdpp Require Import base list.

(** ** Exceptions and results *)

Inductive exn : Type :=
| IndexError (why : string)
| ValueError (why : string)
| TypeError (why : string).

Inductive result (A : Type) : Type :=
| Ok (a : A)
| Raise (e : exn).

Arguments Ok {A} a.
Arguments Raise {A} e.

Definition bind {A B : Type} (c : result A) (k : A -> result B) : result B :=
  match c with
  | Ok a => k a
  | Raise e => Raise e
  end.

Notation "'let*' x ':=' c 'in' k" := (bind c (fun x => k))
  (at level 10, x name, c at level 100, k at level 200).

Definition is_ok {A : Type} (c : result A) : Prop :=
  match c with
  | Ok _ => True
  | Raise _ => False
  end.

(** ** The fragment of Python and numpy the module uses *)

Abbreviation array1 := (list float).
Abbreviation array2 := (list (list float)).

(** [l[i]] for an index produced by [range]. *)
Definition getitem {A : Type} (l : list A) (i : nat) : result A :=
  match l !! i with
  | Some x => Ok x
  | None => Raise (IndexError "index out of bounds")
  end.

(** An integer index into an axis of length [n]: negative indices count
    from the end, anything else out of range raises. *)
Definition np_index (n : nat) (k : Z) : result nat :=
  if ((0 <=? k) && (k <? Z.of_nat n))%Z then Ok (Z.to_nat k)
  else if ((- Z.of_nat n <=? k) && (k <? 0))%Z then Ok (Z.to_nat (k + Z.of_nat n))
  else Raise (IndexError "index out of bounds").

(** [a[j, i]] *)
Definition np_getitem2 (a : array2) (j i : Z) : result float :=
  let* r := np_index (length a) j in
  let* row := getitem a r in
  let* c := np_index (length row) i in
  getitem row c.

(** One end of a slice [lo:hi] on an axis of length [n]: a negative bound
    counts from the end, and the bound is then clipped to [0..n]. *)
Definition slice_bound (n : nat) (k : Z) : nat :=
  if (k <? 0)%Z then Z.to_nat (Z.max (k + Z.of_nat n) 0)
  else Z.to_nat (Z.min k (Z.of_nat n)).

Definition py_slice {A : Type} (lo hi : Z) (l : list A) : list A :=
  let a := slice_bound (length l) lo in
  let b := slice_bound (length l) hi in
  take (b - a) (drop a l).

(** [a[j0:j1, i0:i1]] *)
Definition np_slice2 (a : array2) (j0 j1 i0 i1 : Z) : array2 :=
  map (py_slice i0 i1) (py_slice j0 j1 a).

Fixpoint same_shape (a b : array2) : bool :=
  match a, b with
  | [], [] => true
  | r :: a', s :: b' => (length r =? length s) && same_shape a' b'
  | _, _ => false
  end.

Definition np_zip1 (f : float -> float -> float) (x y : array1) : result array1 :=
  if length x =? length y then Ok (zip_with f x y)
  else Raise (ValueError "operands could not be broadcast together").

Definition np_zip2 (f : float -> float -> float) (a b : array2) : result array2 :=
  if same_shape a b then Ok (zip_with (zip_with f) a b)
  else Raise (ValueError "operands could not be broadcast together").

Definition square (x : float) : float := (x * x)%float.

(** [np.sum] of a 2-D array. *)
Definition np_sum2 (a : array2) : float :=
  fold_left PrimFloat.add (concat a) 0%float.

(** [np.maximum] on two scalars: [a] when [a >= b] or [a] is NaN,
    else [b]; a NaN on either side is therefore returned. *)
Definition np_maximum (a b : float) : float :=
  if (b <=? a)%float || is_nan a then a else b.

(** [np.sum] of a boolean array. *)
Fixpoint np_count (mask : list bool) : nat :=
  match mask with
  | [] => 0
  | b :: mask' => (if b then 1 else 0) + np_count mask'
  end.

Fixpoint mask_select {A : Type} (l : list A) (mask : list bool) : list A :=
  match l, mask with
  | x :: l', b :: mask' =>
      if b then x :: mask_select l' mask' else mask_select l' mask'
  | _, _ => []
  end.

(** [l[mask]] *)
Definition np_getmask {A : Type} (l : list A) (mask : list bool) : result (list A) :=
  if length mask =? length l then Ok (mask_select l mask)
  else Raise (IndexError "boolean index did not match indexed array").

(** [l[mask] = v] *)
Definition np_setmask {A : Type} (l : list A) (mask : list bool) (v : A)
  : result (list A) :=
  if length mask =? length l
  then Ok (zip_with (fun (b : bool) x => if b then v else x) mask l)
  else Raise (IndexError "boolean index did not match indexed array").

(** [int(q)]: truncation towards zero. *)
Definition py_int (q : Q) : Z :=
  if Qle_bool 0 q then Qfloor q else Qceiling q.

(** [int((lo + hi) / 2 + 0.5)], with true division.  Every intermediate
    value is a multiple of one half, which binary64 represents exactly
    for all indices below [2^52]; the expression is evaluated in [Q]. *)
Definition center_index (lo hi : Z) : Z :=
  py_int (inject_Z (lo + hi) / inject_Z 2 + (1 # 2))%Q.

(** The value of a decimal digit. *)
Definition digit_of (c : ascii) : option nat :=
  let n := nat_of_ascii c in
  if (48 <=? n) && (n <=? 57) then Some (n - 48) else None.

(** [template.format] on positional arguments, for a template whose
    replacement fields are numbered ([{0}], [{1}], ...); the fields are
    filled from left to right.  [field] is [None] outside a field,
    [Some None] after the brace that opens one and [Some (Some n)] after
    the digits of [n]. *)
Fixpoint py_format_from (args : list string) (field : option (option nat))
  (template : string) : result string :=
  match template, field with
  | EmptyString, None => Ok EmptyString
  | EmptyString, Some _ => Raise (ValueError "expected '}' before end of string")
  | String c rest, None =>
      if Ascii.eqb c "{" then py_format_from args (Some None) rest
      else
        let* tail := py_format_from args None rest in
        Ok (String c tail)
  | String c rest, Some digits =>
      if Ascii.eqb c "}" then
        match digits with
        | None => Raise (ValueError "automatic field numbering is not modelled")
        | Some n =>
            match args !! n with
            | Some a =>
                let* tail := py_format_from args None rest in
                Ok (a ++ tail)%string
            | None => Raise (IndexError "Replacement index out of range for positional args tuple")
            end
        end
      else
        match digit_of c with
        | Some d => py_format_from args (Some (Some (10 * default 0 digits + d))) rest
        | None => Raise (ValueError "unsupported replacement field")
        end
  end.

Definition py_format (template : string) (args : list string) : result string :=
  py_format_from args None template.

(** ** [find_fluxvar] *)

Definition find_fluxvar (data fraction error : array2) (flux : float)
  (gain : option array2) (imin imax jmin jmax : Z) (pixelwise_error : bool)
  : result float :=
  if pixelwise_error then
    let subvariance := map (map square) (np_slice2 error jmin jmax imin imax) in
    let* subvariance :=
      match gain with
      | Some g =>
          let* q := np_zip2 PrimFloat.div (np_slice2 data jmin jmax imin imax)
                                          (np_slice2 g jmin jmax imin imax) in
          np_zip2 PrimFloat.add subvariance q
      | None => Ok subvariance
      end in
    (* Make sure variance is > 0 *)
    let* weighted := np_zip2 PrimFloat.mul subvariance fraction in
    Ok (np_maximum (np_sum2 weighted) 0%float)
  else
    let* local_error := np_getitem2 error (center_index jmin jmax)
                                          (center_index imin imax) in
    let fluxvar := np_maximum (square local_error * np_sum2 fraction)%float 0%float in
    match gain with
    | Some g =>
        let* local_gain := np_getitem2 g (center_index jmin jmax)
                                         (center_index imin imax) in
        Ok (fluxvar + flux / local_gain)%float
    | None => Ok fluxvar
    end.

(** ** The single-aperture photometer *)

Definition position : Type := (float * float)%type.

(** The [extents] dictionary: ['ood_filter'], the four arrays of
    ['pixel_extent'] and the four arrays of ['phot_extent']. *)
Record extents : Type := {
  ood_filter : list bool;
  x_min : list Z;
  x_max : list Z;
  y_min : list Z;
  y_max : list Z;
  x_pmin : list float;
  x_pmax : list float;
  y_pmin : list float;
  y_pmax : list float
}.

(** What a photometer returns: [(flux, )] or [(flux, fluxerr)]. *)
Inductive phot_tuple : Type :=
| Tuple1 (flux : array1)
| Tuple2 (flux fluxerr : array1).

Definition phot_flux (t : phot_tuple) : array1 :=
  match t with
  | Tuple1 flux => flux
  | Tuple2 flux _ => flux
  end.

(** The length of the last array of the tuple. *)
Definition fluxerr_length (t : phot_tuple) : nat :=
  match t with
  | Tuple1 flux => length flux
  | Tuple2 _ fluxerr => length fluxerr
  end.

Definition phot_len (t : phot_tuple) : nat :=
  match t with
  | Tuple1 _ => 1
  | Tuple2 _ _ => 2
  end.

(** The warning of the photometer; it names the positions whose aperture
    has no overlap with the data, [positions[ood_filter]]. *)
Inductive warning : Type :=
| AstropyUserWarning (offending : list position).

(** A computation that may warn before it returns or raises. *)
Definition warned (A : Type) : Type := (list warning * result A)%type.

Definition quiet {A : Type} (c : result A) : warned A := ([], c).

Definition and_then {A B : Type} (c : warned A) (k : A -> warned B) : warned B :=
  match c with
  | (w, Ok a) => (w ++ (k a).1, (k a).2)
  | (w, Raise e) => (w, Raise e)
  end.

Notation "'let!' x ':=' c 'in' k" := (and_then c (fun x => k))
  (at level 10, x name, c at level 100, k at level 200).

(** The [if]/[elif]/[else] on [method]: the pair [(use_exact, subpixels)]
    the overlap primitive is then called with. *)
Definition resolve_method (method : string) (subpixels : Z) : Z * Z :=
  if (method =? "center")%string then (0, 1)%Z
  else if (method =? "subpixel")%string then (0, subpixels)%Z
  else (1, 1)%Z.

Section Photometer.

(** The overlap primitive with the shape parameters of the aperture
    already given: bounds, window width and height, [use_exact],
    [subpixels].  [do_circular_photometry] and [do_elliptical_photometry]
    have one body and differ in this call alone. *)
Variable overlap : float -> float -> float -> float -> Z -> Z -> Z -> Z -> array2.

Variable data : array2.
Variable positions : list position.
Variable ext : extents.
Variable error : option array2.
Variable gain : option array2.
Variable pixelwise_error : bool.

(** The work of one iteration of the loop for a position that is not
    NaN: the new [flux[i]] and, when [error] is given, the new
    [fluxvar[i]] (zero stands in when it is not; nothing reads it). *)
Definition measure (use_exact subpixels : Z) (i : nat) : result (float * float) :=
  let* xp0 := getitem (x_pmin ext) i in
  let* xp1 := getitem (x_pmax ext) i in
  let* yp0 := getitem (y_pmin ext) i in
  let* yp1 := getitem (y_pmax ext) i in
  let* x1 := getitem (x_max ext) i in
  let* x0 := getitem (x_min ext) i in
  let* y1 := getitem (y_max ext) i in
  let* y0 := getitem (y_min ext) i in
  let fraction := overlap xp0 xp1 yp0 yp1 (x1 - x0)%Z (y1 - y0)%Z
                          use_exact subpixels in
  let* weighted := np_zip2 PrimFloat.mul (np_slice2 data y0 y1 x0 x1) fraction in
  let flux_i := np_sum2 weighted in
  match error with
  | Some err =>
      let* var_i := find_fluxvar data fraction err flux_i gain
                                 x0 x1 y0 y1 pixelwise_error in
      Ok (flux_i, var_i)
  | None => Ok (flux_i, 0%float)
  end.

(** One iteration of [for i in range(len(flux))], on the pair of arrays
    [(flux, fluxvar)]. *)
Definition loop_body (use_exact subpixels : Z) (i : nat)
  (st : array1 * array1) : result (array1 * array1) :=
  let* flux_i := getitem st.1 i in
  if is_nan flux_i then Ok st
  else
    let* m := measure use_exact subpixels i in
    Ok (<[i := m.1]> st.1,
        match error with
        | Some _ => <[i := m.2]> st.2
        | None => st.2
        end).

Fixpoint photometry_loop (use_exact subpixels : Z) (idx : list nat)
  (st : array1 * array1) : result (array1 * array1) :=
  match idx with
  | [] => Ok st
  | i :: idx' =>
      let* st' := loop_body use_exact subpixels i st in
      photometry_loop use_exact subpixels idx' st'
  end.

(** From the resolution of [method] to the [return] at the end. *)
Definition photometry_main (method : string) (subpixels : Z)
  (flux fluxvar : array1) : result phot_tuple :=
  let use_exact := (resolve_method method subpixels).1 in
  let subpixels := (resolve_method method subpixels).2 in
  let* st := photometry_loop use_exact subpixels (seq 0 (length flux))
                             (flux, fluxvar) in
  match error with
  | None => Ok (Tuple1 st.1)
  | Some _ => Ok (Tuple2 st.1 (map PrimFloat.sqrt st.2))
  end.

Definition do_photometry (method : string) (subpixels : Z) : warned phot_tuple :=
  let flux := replicate (length positions) 0%float in
  let fluxvar := replicate (length positions) 0%float in
  if negb (np_count (ood_filter ext) =? 0) then
    match np_setmask flux (ood_filter ext) nan with
    | Raise e => quiet (Raise e)
    | Ok flux =>
        match np_getmask positions (ood_filter ext) with
        | Raise e => quiet (Raise e)
        | Ok offending =>
            ([AstropyUserWarning offending],
             if np_count (ood_filter ext) =? length positions
             then Ok (Tuple1 flux)
             else photometry_main method subpixels flux fluxvar)
        end
    end
  else quiet (photometry_main method subpixels flux fluxvar).

End Photometer.

(** ** The two photometers and the annulus composer *)

Section Apertures.

Variable circular_overlap_grid :
  float -> float -> float -> float -> Z -> Z -> float -> Z -> Z -> array2.
Variable elliptical_overlap_grid :
  float -> float -> float -> float -> Z -> Z ->
  float -> float -> float -> Z -> Z -> array2.

Definition do_circular_photometry (data : array2) (positions : list position)
  (ext : extents) (radius : float) (error gain : option array2)
  (pixelwise_error : bool) (method : string) (subpixels : Z)
  : warned phot_tuple :=
  do_photometry
    (fun xp0 xp1 yp0 yp1 nx ny use_exact subpixels =>
       circular_overlap_grid xp0 xp1 yp0 yp1 nx ny radius use_exact subpixels)
    data positions ext error gain pixelwise_error method subpixels.

Definition do_elliptical_photometry (data : array2) (positions : list position)
  (ext : extents) (a b theta : float) (error gain : option array2)
  (pixelwise_error : bool) (method : string) (subpixels : Z)
  : warned phot_tuple :=
  do_photometry
    (fun xp0 xp1 yp0 yp1 nx ny use_exact subpixels =>
       elliptical_overlap_grid xp0 xp1 yp0 yp1 nx ny a b theta
                               use_exact subpixels)
    data positions ext error gain pixelwise_error method subpixels.

(** A call that unpacks [params] into the one shape parameter of a
    circle: any other number of values leaves [radius] unbound or binds
    [error] twice.  [call_elliptical] does the same with three. *)
Definition call_circular (data : array2) (positions : list position)
  (ext : extents) (params : list float) (error gain : option array2)
  (pixelwise_error : bool) (method : string) (subpixels : Z)
  : warned phot_tuple :=
  match params with
  | [radius] =>
      do_circular_photometry data positions ext radius error gain
                             pixelwise_error method subpixels
  | _ => quiet (Raise (TypeError "do_circular_photometry: wrong number of arguments"))
  end.

Definition call_elliptical (data : array2) (positions : list position)
  (ext : extents) (params : list float) (error gain : option array2)
  (pixelwise_error : bool) (method : string) (subpixels : Z)
  : warned phot_tuple :=
  match params with
  | [a; b; theta] =>
      do_elliptical_photometry data positions ext a b theta error gain
                               pixelwise_error method subpixels
  | _ => quiet (Raise (TypeError "do_elliptical_photometry: wrong number of arguments"))
  end.

(** [flux, fluxerr = t] *)
Definition unpack2 (t : phot_tuple) : result (array1 * array1) :=
  match t with
  | Tuple2 flux fluxerr => Ok (flux, fluxerr)
  | Tuple1 _ => Raise (ValueError "not enough values to unpack (expected 2, got 1)")
  end.

(** [np.maximum((fluxerr_o ** 2 - fluxerr_i ** 2), 0)] *)
Definition annulus_fluxvar (fluxerr_o fluxerr_i : array1) : result array1 :=
  let* d := np_zip1 PrimFloat.sub (map square fluxerr_o) (map square fluxerr_i) in
  Ok (map (fun v => np_maximum v 0%float) d).

(** The last five lines of [do_annulus_photometry], without an error
    map ([flux_outer] and [flux_inner] are the returned tuples, and
    [t[0]] is [phot_flux t]) ... *)
Definition annulus_return (flux_outer flux_inner : phot_tuple) : result phot_tuple :=
  let* flux := np_zip1 PrimFloat.sub (phot_flux flux_outer) (phot_flux flux_inner) in
  Ok (Tuple1 flux).

(** ... and with one ([flux_outer] and [flux_inner] are arrays). *)
Definition annulus_return_err (flux_outer flux_inner fluxvar : array1)
  : result phot_tuple :=
  let* flux := np_zip1 PrimFloat.sub flux_outer flux_inner in
  Ok (Tuple2 flux (map PrimFloat.sqrt fluxvar)).

Definition do_annulus_photometry (data : array2) (positions : list position)
  (mode : string) (ext : extents) (inner_params outer_params : list float)
  (error gain : option array2) (pixelwise_error : bool) (method : string)
  (subpixels : Z) : warned phot_tuple :=
  if (mode =? "circular")%string then
    match error with
    | None =>
        let! flux_outer := call_circular data positions ext outer_params error
                             gain pixelwise_error method subpixels in
        let! flux_inner := call_circular data positions ext inner_params error
                             gain pixelwise_error method subpixels in
        quiet (annulus_return flux_outer flux_inner)
    | Some _ =>
        let! outer := call_circular data positions ext outer_params error
                        gain pixelwise_error method subpixels in
        let! o := quiet (unpack2 outer) in
        let! inner := call_circular data positions ext inner_params error
                        gain pixelwise_error method subpixels in
        let! i := quiet (unpack2 inner) in
        let! fluxvar := quiet (annulus_fluxvar o.2 i.2) in
        quiet (annulus_return_err o.1 i.1 fluxvar)
    end
  else if (mode =? "elliptical")%string then
    match error with
    | None =>
        let! flux_inner := call_elliptical data positions ext inner_params error
                             gain pixelwise_error method subpixels in
        let! flux_outer := call_elliptical data positions ext outer_params error
                             gain pixelwise_error method subpixels in
        quiet (annulus_return flux_outer flux_inner)
    | Some _ =>
        let! inner := call_elliptical data positions ext inner_params error
                        gain pixelwise_error method subpixels in
        let! i := quiet (unpack2 inner) in
        let! outer := call_elliptical data positions ext outer_params error
                        gain pixelwise_error method subpixels in
        let! o := quiet (unpack2 outer) in
        let! fluxvar := quiet (annulus_fluxvar o.2 i.2) in
        quiet (annulus_return_err o.1 i.1 fluxvar)
    end
  else
    let! msg := quiet (py_format "{0} mode is not supported for annular photometry{1}"
                                 [mode]) in
    quiet (Raise (ValueError msg)).

End Apertures.

(** ** Sample inputs

    A coarse stand-in for the overlap primitives, for the concrete runs
    below: an aperture whose radius (or semi-major axis) is below 2
    covers a quarter of every pixel of its window, a larger one covers
    the window in full. *)

Definition sample_overlap_grid (size : float) (nx ny : Z) : array2 :=
  replicate (Z.to_nat ny)
            (replicate (Z.to_nat nx)
                       (if (size <? 2)%float then 0.25%float else 1%float)).

Definition sample_circular
  (xp0 xp1 yp0 yp1 : float) (nx ny : Z) (radius : float) (use_exact subpixels : Z)
  : array2 := sample_overlap_grid radius nx ny.

Definition sample_elliptical
  (xp0 xp1 yp0 yp1 : float) (nx ny : Z) (a b theta : float)
  (use_exact subpixels : Z) : array2 := sample_overlap_grid a nx ny.

(** One aperture that covers the whole 3 x 3 image. *)
Definition one_position : list position := [(1, 1)]%float.

Definition one_extent : extents :=
  {| ood_filter := [false];
     x_min := [0]%Z; x_max := [3]%Z; y_min := [0]%Z; y_max := [3]%Z;
     x_pmin := [-1.5]%float; x_pmax := [1.5]%float;
     y_pmin := [-1.5]%float; y_pmax := [1.5]%float |}.



Definition no_extents : extents :=
  {| ood_filter := []; x_min := []; x_max := []; y_min := []; y_max := [];
     x_pmin := []; x_pmax := []; y_pmin := []; y_pmax := [] |}.

(** A 3 x 3 image and extents for two positions: the first aperture
    covers the whole image, the second lies off the image. *)
Definition image3 (v : float) : array2 :=
  [[v; v; v]; [v; v; v]; [v; v; v]].

Definition two_positions : list position :=
  [(1, 1); (9, 9)]%float.

Definition extents_of (ood : list bool) : extents :=
  {| ood_filter := ood;
     x_min := [0; 0]%Z; x_max := [3; 0]%Z;
     y_min := [0; 0]%Z; y_max := [3; 0]%Z;
     x_pmin := [-1.5; 0]%float; x_pmax := [1.5; 0]%float;
     y_pmin := [-1.5; 0]%float; y_pmax := [1.5; 0]%float |}.

(** ** Vocabulary of the statements *)

(** The two shape families, with the [mode] string and the parameter
    tuple that [do_annulus_photometry] takes for each. *)
Inductive geometry : Type :=
| Circle (radius : float)
| Ellipse (a b theta : float).

Definition mode_of (g : geometry) : string :=
  match g with
  | Circle _ => "circular"
  | Ellipse _ _ _ => "elliptical"
  end.

Definition params_of (g : geometry) : list float :=
  match g with
  | Circle radius => [radius]
  | Ellipse a b theta => [a; b; theta]
  end.

(** The single-aperture photometer of a shape. *)
Definition single_aperture
  (circular_overlap_grid :
     float -> float -> float -> float -> Z -> Z -> float -> Z -> Z -> array2)
  (elliptical_overlap_grid :
     float -> float -> float -> float -> Z -> Z ->
     float -> float -> float -> Z -> Z -> array2)
  (g : geometry) (data : array2) (positions : list position) (ext : extents)
  (error gain : option array2) (pixelwise_error : bool) (method : string)
  (subpixels : Z) : warned phot_tuple :=
  match g with
  | Circle radius =>
      do_circular_photometry circular_overlap_grid data positions ext radius
                             error gain pixelwise_error method subpixels
  | Ellipse a b theta =>
      do_elliptical_photometry elliptical_overlap_grid data positions ext
                               a b theta error gain pixelwise_error method
                               subpixels
  end.

(** The overlap primitive that the photometer of a shape calls. *)
Definition overlap_of
  (circular_overlap_grid :
     float -> float -> float -> float -> Z -> Z -> float -> Z -> Z -> array2)
  (elliptical_overlap_grid :
     float -> float -> float -> float -> Z -> Z ->
     float -> float -> float -> Z -> Z -> array2)
  (g : geometry) : float -> float -> float -> float -> Z -> Z -> Z -> Z -> array2 :=
  match g with
  | Circle radius =>
      fun xp0 xp1 yp0 yp1 nx ny use_exact subpixels =>
        circular_overlap_grid xp0 xp1 yp0 yp1 nx ny radius use_exact subpixels
  | Ellipse a b theta =>
      fun xp0 xp1 yp0 yp1 nx ny use_exact subpixels =>
        elliptical_overlap_grid xp0 xp1 yp0 yp1 nx ny a b theta
                                use_exact subpixels
  end.

(** [flux] after [flux[ood_filter] = np.nan] on the freshly allocated
    zeros. *)
Definition marked_flux (ood : list bool) (n : nat) : array1 :=
  zip_with (fun (b : bool) x => if b then nan else x) ood (replicate n 0%float).

(** What [do_annulus_photometry] makes of the two tuples once both
    single-aperture calls have returned. *)
Definition annulus_of_tuples (error : option array2) (outer inner : phot_tuple)
  : result phot_tuple :=
  match error with
  | None => annulus_return outer inner
  | Some _ =>
      let* o := unpack2 outer in
      let* i := unpack2 inner in
      let* fluxvar := annulus_fluxvar o.2 i.2 in
      annulus_return_err o.1 i.1 fluxvar
  end.

(** The variance of the annulus at one position, from the two flux
    errors: max(outer squared - inner squared, 0). *)
Definition annulus_variance (fluxerr_o fluxerr_i : float) : float :=
  np_maximum (fluxerr_o * fluxerr_o - fluxerr_i * fluxerr_i)%float 0%float.

(** [a] is an array of [n] rows and [m] columns. *)
Definition has_shape (a : array2) (n m : nat) : Prop :=
  length a = n /\ Forall (fun row => length row = m) a.

(** A well-formed call on an image of [H] rows and [W] columns: maps of
    the shape of the image, the pixelwise policy when there is an error
    map, a mask and extents for every position, and windows that lie
    inside the image. *)
Definition well_formed_call (data : array2) (positions : list position)
  (ext : extents) (error gain : option array2) (pixelwise_error : bool)
  (H W : nat) : Prop :=
  has_shape data H W /\
  match error with
  | None => True
  | Some err =>
      pixelwise_error = true /\ has_shape err H W /\
      match gain with
      | None => True
      | Some gn => has_shape gn H W
      end
  end /\
  length (ood_filter ext) = length positions /\
  length (x_min ext) = length positions /\
  length (x_max ext) = length positions /\
  length (y_min ext) = length positions /\
  length (y_max ext) = length positions /\
  length (x_pmin ext) = length positions /\
  length (x_pmax ext) = length positions /\
  length (y_pmin ext) = length positions /\
  length (y_pmax ext) = length positions /\
  (forall i x0 x1, x_min ext !! i = Some x0 -> x_max ext !! i = Some x1 ->
     (0 <= x0 <= x1)%Z /\ (x1 <= Z.of_nat W)%Z) /\
  (forall i y0 y1, y_min ext !! i = Some y0 -> y_max ext !! i = Some y1 ->
     (0 <= y0 <= y1)%Z /\ (y1 <= Z.of_nat H)%Z).

(** The contract of the overlap primitives: a grid of the height and
    width asked for. *)
Definition conforming
  (circular_overlap_grid :
     float -> float -> float -> float -> Z -> Z -> float -> Z -> Z -> array2)
  (elliptical_overlap_grid :
     float -> float -> float -> float -> Z -> Z ->
     float -> float -> float -> Z -> Z -> array2) : Prop :=
  forall (g : geometry) xp0 xp1 yp0 yp1 nx ny use_exact subpixels,
    has_shape (overlap_of circular_overlap_grid elliptical_overlap_grid g
                          xp0 xp1 yp0 yp1 nx ny use_exact subpixels)
              (Z.to_nat ny) (Z.to_nat nx).

(** Every position is flagged out-of-data. *)
Definition all_out_of_data (ext : extents) (positions : list position) : Prop :=
  length (ood_filter ext) = length positions /\
  forall i, i < length positions -> ood_filter ext !! i = Some true.

(** max(x, 0) in words: NaN when [x] is NaN, zero when [x] is negative,
    [x] itself otherwise.  It is written with the comparison [x < 0],
    which [np_maximum] does not use. *)
Definition clamp_at_zero (x : float) : float :=
  if is_nan x then x
  else if (x <? 0)%float then 0%float
  else x.

(** The variance of the annulus at one position in the words of the
    specification: max(outer flux error squared - inner flux error
    squared, 0). *)
Definition clamped_difference (fluxerr_o fluxerr_i : float) : float :=
  clamp_at_zero (fluxerr_o * fluxerr_o - fluxerr_i * fluxerr_i)%float.

(** The aggregate policy in the words of the specification: one error
    value sampled at the pixel whose index along each axis is
    floor(midpoint + 0.5), squared, times the sum of the overlap
    fractions, clamped at zero; with a gain, plus flux / gain at the same
    pixel. *)
Definition midpoint_pixel (lo hi : Z) : Z :=
  Qfloor (inject_Z (lo + hi) / inject_Z 2 + (1 # 2))%Q.


(** * Properties *)

(** ** Results, masks and counts *)

Lemma bind_ok {A B : Type} (c : result A) (k : A -> result B) (b : B) :
  bind c k = Ok b -> exists a, c = Ok a /\ k a = Ok b.
Proof. destruct c as [a|e]; simpl; [eauto | discriminate]. Qed.

Lemma is_ok_inv {A : Type} (c : result A) : is_ok c -> exists a, c = Ok a.
Proof. destruct c as [a|e]; simpl; [eauto | tauto]. Qed.



Lemma np_count_replicate_true (n : nat) : np_count (replicate n true) = n.
Proof. induction n as [|n IH]; simpl; [reflexivity | now rewrite IH]. Qed.

Lemma all_true_replicate (mask : list bool) :
  (forall i, i < length mask -> mask !! i = Some true) ->
  mask = replicate (length mask) true.
Proof.
  induction mask as [|b mask IH]; simpl; intros Hall; [reflexivity|].
  f_equal.
  - specialize (Hall 0 ltac:(lia)). simpl in Hall. congruence.
  - apply IH. intros i Hi. apply (Hall (S i)). lia.
Qed.

Lemma mask_select_full {A : Type} (l : list A) :
  mask_select l (replicate (length l) true) = l.
Proof. induction l as [|x l IH]; simpl; [reflexivity | now rewrite IH]. Qed.

Lemma setmask_full {A : Type} (l : list A) (v : A) :
  zip_with (fun (b : bool) x => if b then v else x)
           (replicate (length l) true) l
  = replicate (length l) v.
Proof. induction l as [|x l IH]; simpl; [reflexivity | now rewrite IH]. Qed.

Lemma np_setmask_ok {A : Type} (l l' : list A) (mask : list bool) (v : A) :
  np_setmask l mask v = Ok l' ->
  length mask = length l /\
  l' = zip_with (fun (b : bool) x => if b then v else x) mask l /\
  length l' = length l.
Proof.
  unfold np_setmask. destruct (length mask =? length l) eqn:E; [|discriminate].
  apply Nat.eqb_eq in E. intros [= <-].
  rewrite length_zip_with. repeat split; [assumption | lia].
Qed.

Lemma np_zip1_ok (f : float -> float -> float) (x y : array1) :
  length x = length y -> np_zip1 f x y = Ok (zip_with f x y).
Proof. intros E. unfold np_zip1. now rewrite E, Nat.eqb_refl. Qed.

(** ** The loop over the positions *)

Section LoopFacts.

Variable overlap : float -> float -> float -> float -> Z -> Z -> Z -> Z -> array2.
Variable data : array2.
Variable ext : extents.
Variable error : option array2.
Variable gain : option array2.
Variable pixelwise_error : bool.
Variables use_exact subpixels : Z.

Local Abbreviation measure_at :=
  (measure overlap data ext error gain pixelwise_error use_exact subpixels).
Local Abbreviation body :=
  (loop_body overlap data ext error gain pixelwise_error use_exact subpixels).
Local Abbreviation loop :=
  (photometry_loop overlap data ext error gain pixelwise_error use_exact subpixels).

(** An iteration leaves a NaN entry alone and writes the measured flux
    over any other. *)
Lemma loop_body_cases (i : nat) (st st' : array1 * array1) :
  body i st = Ok st' ->
  exists x, st.1 !! i = Some x /\
    ((is_nan x = true /\ st' = st) \/
     (is_nan x = false /\ exists m, measure_at i = Ok m /\
        st'.1 = <[i := m.1]> st.1 /\
        st'.2 = match error with
                | Some _ => <[i := m.2]> st.2
                | None => st.2
                end)).
Proof.
  unfold loop_body, getitem. intros H.
  destruct (st.1 !! i) as [x|] eqn:Hx; simpl in H; [|discriminate].
  exists x. split; [reflexivity|].
  destruct (is_nan x) eqn:Hn.
  - left. split; [reflexivity | congruence].
  - right. split; [reflexivity|].
    apply bind_ok in H as (m & Hm & H). injection H as <-.
    exists m. simpl. auto.
Qed.

Lemma loop_body_length (i : nat) (st st' : array1 * array1) :
  body i st = Ok st' ->
  length st'.1 = length st.1 /\ length st'.2 = length st.2.
Proof.
  intros H. apply loop_body_cases in H as (x & _ & [[_ ->] | (_ & m & _ & -> & ->)]).
  - auto.
  - rewrite length_insert. destruct error; [rewrite length_insert|]; auto.
Qed.

Lemma photometry_loop_length (idx : list nat) : forall st st',
  loop idx st = Ok st' ->
  length st'.1 = length st.1 /\ length st'.2 = length st.2.
Proof.
  induction idx as [|i idx IH]; simpl; intros st st' H.
  - injection H as <-. auto.
  - apply bind_ok in H as (st1 & H1 & H).
    apply loop_body_length in H1 as [E1 E2]. apply IH in H as [E3 E4].
    split; congruence.
Qed.

(** The loop returns when every position it visits is NaN or can be
    measured; it then holds the measured flux at every visited position
    that was not NaN and has changed no other entry of [flux]. *)
Lemma photometry_loop_spec (idx : list nat) : forall st,
  NoDup idx ->
  (forall i, i ∈ idx ->
     exists x, st.1 !! i = Some x /\ (is_nan x = false -> is_ok (measure_at i))) ->
  exists st', loop idx st = Ok st' /\
    (forall i, i ∉ idx -> st'.1 !! i = st.1 !! i) /\
    (forall i x, i ∈ idx -> st.1 !! i = Some x ->
       if is_nan x then st'.1 !! i = Some x
       else exists m, measure_at i = Ok m /\ st'.1 !! i = Some m.1).
Proof.
  induction idx as [|i idx IH]; intros st Hnd Hidx.
  - exists st. simpl. split; [reflexivity|]. split; [auto|].
    intros i x Hi. inversion Hi.
  - apply NoDup_cons in Hnd as [Hi Hnd].
    destruct (Hidx i ltac:(left)) as (x & Hx & Hm).
    assert (exists st1, body i st = Ok st1 /\
              (forall j, j <> i -> st1.1 !! j = st.1 !! j) /\
              (if is_nan x then st1.1 !! i = Some x
               else exists m, measure_at i = Ok m /\ st1.1 !! i = Some m.1))
      as (st1 & Hb & Hother & Hat).
    { unfold loop_body, getitem. rewrite Hx. simpl.
      destruct (is_nan x) eqn:Hn.
      - exists st. auto.
      - destruct (is_ok_inv _ (Hm eq_refl)) as [m Hmi]. rewrite Hmi. simpl.
        eexists. split; [reflexivity|]. simpl. split.
        + intros j Hj. now apply list_lookup_insert_ne.
        + exists m. split; [reflexivity|].
          apply list_lookup_insert_eq. now apply lookup_lt_Some in Hx. }
    destruct (IH st1 Hnd) as (st' & Hl & Hout & Hin).
    { intros j Hj. destruct (Hidx j ltac:(now right)) as (y & Hy & Hmj).
      exists y. split; [|assumption].
      rewrite Hother; [assumption|]. intros ->. contradiction. }
    exists st'. simpl. rewrite Hb. simpl. split; [assumption|]. split.
    + intros j Hj. apply not_elem_of_cons in Hj as [Hji Hj].
      rewrite (Hout j Hj). now apply Hother.
    + intros j y Hj Hy. apply elem_of_cons in Hj as [->|Hj].
      * rewrite (Hout i Hi). assert (y = x) as -> by congruence. exact Hat.
      * apply (Hin j y Hj). rewrite Hother; [assumption|].
        intros ->. contradiction.
Qed.

End LoopFacts.

(** ** The photometer as a whole *)

Section PhotometerFacts.

Variable overlap : float -> float -> float -> float -> Z -> Z -> Z -> Z -> array2.
Variable data : array2.
Variable positions : list position.
Variable ext : extents.
Variable error : option array2.
Variable gain : option array2.
Variable pixelwise_error : bool.
Variable method : string.
Variable subpixels : Z.

Local Abbreviation main :=
  (photometry_main overlap data ext error gain pixelwise_error method subpixels).
Local Abbreviation photometer :=
  (do_photometry overlap data positions ext error gain pixelwise_error
                 method subpixels).

Lemma photometry_main_shape (flux fluxvar : array1) (t : phot_tuple) :
  length fluxvar = length flux ->
  main flux fluxvar = Ok t ->
  length (phot_flux t) = length flux /\
  fluxerr_length t = length flux /\
  phot_len t = match error with Some _ => 2 | None => 1 end.
Proof.
  intros Hfv H. unfold photometry_main in H.
  apply bind_ok in H as (st & Hloop & H).
  apply photometry_loop_length in Hloop as [E1 E2]. simpl in E1, E2.
  destruct error; injection H as <-; simpl;
    rewrite ?length_map; repeat split; congruence.
Qed.

(** The flux array that is returned has one entry per position, and so
    has the array of flux errors. *)
Lemma do_photometry_shape (w : list warning) (t : phot_tuple) :
  photometer = (w, Ok t) ->
  length (phot_flux t) = length positions /\
  fluxerr_length t = length positions.
Proof.
  unfold do_photometry, quiet.
  set (zeros := replicate (length positions) 0%float).
  assert (length zeros = length positions) as Hz by apply length_replicate.
  destruct (negb (np_count (ood_filter ext) =? 0)).
  - destruct (np_setmask zeros (ood_filter ext) nan) as [flux|e] eqn:Hset;
      [|discriminate].
    apply np_setmask_ok in Hset as (_ & _ & Hlen).
    destruct (np_getmask positions (ood_filter ext)) as [bad|e]; [|discriminate].
    destruct (np_count (ood_filter ext) =? length positions).
    + intros [= _ <-]. simpl. split; congruence.
    + intros [= _ H]. apply photometry_main_shape in H as (E1 & E2 & _);
        [split; congruence | congruence].
  - intros [= _ H]. apply photometry_main_shape in H as (E1 & E2 & _);
      [split; congruence | reflexivity].
Qed.

(** With at least one position and all of them flagged, the photometer
    warns, marks every flux NaN and returns the flux alone. *)
Lemma do_photometry_all_out_of_data :
  positions <> [] ->
  all_out_of_data ext positions ->
  photometer = ([AstropyUserWarning positions],
                Ok (Tuple1 (replicate (length positions) nan))).
Proof.
  intros Hne [Hlen Hall]. rewrite <- Hlen in Hall.
  apply all_true_replicate in Hall. rewrite Hlen in Hall.
  unfold do_photometry, np_setmask, np_getmask.
  rewrite Hall, np_count_replicate_true, !length_replicate, !Nat.eqb_refl.
  destruct (length positions =? 0) eqn:E.
  { apply Nat.eqb_eq, length_zero_iff_nil in E. contradiction. }
  cbn [negb]. rewrite mask_select_full.
  pose proof (setmask_full (replicate (length positions) 0%float) nan) as Hs.
  rewrite length_replicate in Hs. rewrite Hs. reflexivity.
Qed.

End PhotometerFacts.

Lemma single_aperture_photometer co eo (g : geometry) data positions ext
  error gain pixelwise_error method subpixels :
  single_aperture co eo g data positions ext error gain pixelwise_error
                  method subpixels
  = do_photometry (overlap_of co eo g) data positions ext error gain
                  pixelwise_error method subpixels.
Proof. destruct g; reflexivity. Qed.

Lemma is_nan_nan : is_nan nan = true.
Proof. reflexivity. Qed.

Lemma is_nan_zero : is_nan 0%float = false.
Proof. reflexivity. Qed.

Lemma lookup_marked_flux (ood : list bool) (n i : nat) (b : bool) :
  i < n -> ood !! i = Some b ->
  marked_flux ood n !! i = Some (if b then nan else 0%float).
Proof.
  intros Hi Hb. unfold marked_flux. rewrite lookup_zip_with, Hb. simpl.
  rewrite (proj2 (lookup_replicate n 0%float 0%float i)); auto.
Qed.

(** ** Out-of-data positions *)

Lemma single_aperture_all_out_of_data co eo (g : geometry) data positions
  ext error gain pixelwise_error method subpixels :
  positions <> [] ->
  all_out_of_data ext positions ->
  single_aperture co eo g data positions ext error gain pixelwise_error
                  method subpixels
  = ([AstropyUserWarning positions],
     Ok (Tuple1 (replicate (length positions) nan))).
Proof.
  intros. rewrite single_aperture_photometer.
  now apply do_photometry_all_out_of_data.
Qed.

(** C4, as amended: when there is at least one position and all positions
    are flagged out-of-data, [do_circular_photometry] and
    [do_elliptical_photometry] return the 1-tuple of the all-NaN flux
    array, whether or not an error map was given (after the warning that
    names all positions). *)
Theorem all_out_of_data_returns_flux_only :
  forall co eo (g : geometry) data positions ext error gain pixelwise_error
         method subpixels,
  positions <> [] ->
  all_out_of_data ext positions ->
  single_aperture co eo g data positions ext error gain pixelwise_error
                  method subpixels
  = ([AstropyUserWarning positions],
     Ok (Tuple1 (replicate (length positions) nan))).
Proof. intros. now apply single_aperture_all_out_of_data. Qed.

Lemma all_out_of_data_returns_flux_only_witness :
  single_aperture sample_circular sample_elliptical (Circle 2) (image3 1)
                  two_positions (extents_of [true; true]) (Some (image3 2))
                  None true "exact" 5
  = ([AstropyUserWarning two_positions], Ok (Tuple1 [nan; nan])).
Proof.
  apply (all_out_of_data_returns_flux_only sample_circular sample_elliptical
           (Circle 2) (image3 1) two_positions (extents_of [true; true])).
  - discriminate.
  - split; [reflexivity|].
    intros [|[|i]] Hi; [reflexivity | reflexivity | simpl in Hi; lia].
Defined.

(** C4, as stated, fails on an empty list of positions: no position is
    then left unflagged, and with an error map the photometer returns a
    pair of (empty) arrays, not the flux alone. *)
Lemma no_position_returns_pair :
  all_out_of_data no_extents [] /\
  do_circular_photometry sample_circular (image3 1) [] no_extents 2
                         (Some (image3 2)) None true "exact" 5
  = ([], Ok (Tuple2 [] [])).
Proof.
  split; [|reflexivity].
  split; [reflexivity|]. intros i Hi. simpl in Hi. lia.
Qed.

(** ** The resolution of [method] *)

(** C6: ['center'] resolves to [use_exact = 0] and one subpixel whatever
    the caller passed, ['subpixel'] to [use_exact = 0] and the caller's
    count, ['exact'] to [use_exact = 1] and one subpixel; the photometers
    resolve the method once, ahead of the loop, so a call with ['center']
    or ['exact'] is the call with [subpixels = 1]. *)
Theorem method_resolution :
  (forall s, resolve_method "center" s = (0, 1)%Z) /\
  (forall s, resolve_method "subpixel" s = (0, s)%Z) /\
  (forall s, resolve_method "exact" s = (1, 1)%Z) /\
  (forall overlap data ext error gain pixelwise_error method s flux fluxvar,
     photometry_main overlap data ext error gain pixelwise_error method s
                     flux fluxvar
     = let* st := photometry_loop overlap data ext error gain pixelwise_error
                    (resolve_method method s).1 (resolve_method method s).2
                    (seq 0 (length flux)) (flux, fluxvar) in
       match error with
       | None => Ok (Tuple1 st.1)
       | Some _ => Ok (Tuple2 st.1 (map PrimFloat.sqrt st.2))
       end) /\
  (forall co eo g data positions ext error gain pixelwise_error s,
     single_aperture co eo g data positions ext error gain pixelwise_error
                     "center" s
     = single_aperture co eo g data positions ext error gain pixelwise_error
                       "center" 1) /\
  (forall co eo g data positions ext error gain pixelwise_error s,
     single_aperture co eo g data positions ext error gain pixelwise_error
                     "exact" s
     = single_aperture co eo g data positions ext error gain pixelwise_error
                       "exact" 1).
Proof.
  repeat split; intros; try reflexivity; now destruct g.
Qed.

Lemma resolve_method_other (method : string) (s : Z) :
  method <> "center"%string -> method <> "subpixel"%string ->
  resolve_method method s = (1, 1)%Z.
Proof.
  intros Hc Hs. unfold resolve_method.
  apply String.eqb_neq in Hc, Hs. now rewrite Hc, Hs.
Qed.

(** C9: the photometers do not validate [method]: any string other than
    ['center'] and ['subpixel'] resolves to [use_exact = 1] with one
    subpixel, and the call is the call with ['exact']. *)
Theorem unknown_method_is_exact :
  forall method : string,
  method <> "center"%string -> method <> "subpixel"%string ->
  (forall s, resolve_method method s = (1, 1)%Z) /\
  (forall co eo g data positions ext error gain pixelwise_error s,
     single_aperture co eo g data positions ext error gain pixelwise_error
                     method s
     = single_aperture co eo g data positions ext error gain pixelwise_error
                       "exact" s).
Proof.
  intros method Hc Hs. split.
  - intros s. now apply resolve_method_other.
  - intros. rewrite !single_aperture_photometer.
    unfold do_photometry, photometry_main.
    now rewrite (resolve_method_other method s Hc Hs).
Qed.

Lemma unknown_method_is_exact_witness :
  resolve_method "exat" 5 = (1, 1)%Z /\
  single_aperture sample_circular sample_elliptical (Circle 2) (image3 1)
                  one_position one_extent None None true "exat" 5
  = single_aperture sample_circular sample_elliptical (Circle 2) (image3 1)
                    one_position one_extent None None true "exact" 5.
Proof.
  destruct (unknown_method_is_exact "exat") as [Hr Hcall];
    [discriminate | discriminate |].
  split; [apply Hr | apply Hcall].
Defined.

(** ** The variance of one aperture *)

(** A number that is not NaN is either at least zero or below zero. *)
Lemma leb_zero_ltb (x : float) :
  is_nan x = false -> (0 <=? x)%float = negb (x <? 0)%float.
Proof.
  unfold is_nan.
  rewrite FloatAxioms.eqb_spec, FloatAxioms.leb_spec, FloatAxioms.ltb_spec.
  change (Prim2SF 0) with (S754_zero false).
  destruct (Prim2SF x) as [s|s| |s m e]; simpl; try discriminate;
    intros _; now destruct s.
Qed.

(** NaN is neither. *)
Lemma nan_not_compared (x : float) :
  is_nan x = true -> (0 <=? x)%float = false /\ (x <? 0)%float = false.
Proof.
  unfold is_nan.
  rewrite FloatAxioms.eqb_spec, FloatAxioms.leb_spec, FloatAxioms.ltb_spec.
  change (Prim2SF 0) with (S754_zero false).
  destruct (Prim2SF x) as [s|s| |s m e] eqn:E; intros H.
  - discriminate H.
  - destruct s; discriminate H.
  - split; reflexivity.
  - unfold SFeqb, SFcompare in H.
    rewrite Z.compare_refl, Pos.compare_refl in H.
    destruct s; discriminate H.
Qed.

(** [np.maximum(x, 0)] is the clamp at zero: NaN for NaN, zero for a
    negative number, [x] otherwise. *)
Lemma np_maximum_clamp (x : float) :
  np_maximum x 0%float = clamp_at_zero x.
Proof.
  unfold np_maximum, clamp_at_zero. destruct (is_nan x) eqn:Hnan.
  - now rewrite orb_true_r.
  - rewrite (leb_zero_ltb x Hnan), orb_false_r.
    now destruct (x <? 0)%float.
Qed.

Lemma clamp_at_zero_cases (x : float) :
  (is_nan x = true /\ clamp_at_zero x = x) \/
  (is_nan x = false /\ (x <? 0)%float = true /\ (0 <=? x)%float = false /\
   clamp_at_zero x = 0%float) \/
  (is_nan x = false /\ (x <? 0)%float = false /\ (0 <=? x)%float = true /\
   clamp_at_zero x = x).
Proof.
  unfold clamp_at_zero. destruct (is_nan x) eqn:Hnan; [now left | right].
  rewrite (leb_zero_ltb x Hnan). destruct (x <? 0)%float; auto.
Qed.

(** For window bounds that are pixel indices, [int] truncates a value
    that is not negative, which is what [floor] does. *)
Lemma center_index_floor (lo hi : Z) :
  (0 <= lo)%Z -> (0 <= hi)%Z -> center_index lo hi = midpoint_pixel lo hi.
Proof.
  intros Hlo Hhi. unfold center_index, midpoint_pixel, py_int.
  destruct (Qle_bool 0 _) eqn:E; [reflexivity|].
  apply not_true_iff_false in E. exfalso. apply E.
  apply Qle_bool_iff. unfold Qle. simpl. lia.
Qed.

(** The pixel in closed form: the floor of [(lo + hi + 1) / 2]. *)
Lemma midpoint_pixel_div (lo hi : Z) :
  midpoint_pixel lo hi = ((lo + hi + 1) / 2)%Z.
Proof.
  unfold midpoint_pixel. simpl.
  change (Z.pos (1 * 2 * 2)) with (2 * 2)%Z. change (Z.pos (1 * 2)) with 2%Z.
  replace ((lo + hi) * 1 * 2 + 1 * 2)%Z with ((lo + hi + 1) * 2)%Z by lia.
  apply Z.div_mul_cancel_r; lia.
Qed.



(** [np.maximum(x, 0)] is not below zero, unless [x] is NaN. *)
Lemma np_maximum_nonneg (x : float) :
  is_nan x = false -> (0 <=? np_maximum x 0)%float = true.
Proof.
  intros Hx. unfold np_maximum. rewrite Hx, orb_false_r.
  destruct (0 <=? x)%float eqn:E; [assumption | reflexivity].
Qed.

(** The pixelwise policy clamps last: what it returns is a clamped sum. *)
Lemma find_fluxvar_pixelwise_clamped data fraction error flux gain
  imin imax jmin jmax (v : float) :
  find_fluxvar data fraction error flux gain imin imax jmin jmax true = Ok v ->
  exists s, v = np_maximum s 0%float.
Proof.
  unfold find_fluxvar. intros H.
  apply bind_ok in H as (sub & _ & H).
  apply bind_ok in H as (weighted & _ & H).
  injection H as <-. eauto.
Qed.

(** C2 fails in aggregate mode with a gain: the clamp is applied before
    [flux / local_gain] is added, so a negative flux gives a negative
    variance.  Here every pixel is -2 (flux -18), the error is 1 and the
    gain is 1: the variance is 9 - 18, and the photometer returns NaN as
    the flux error. *)
Theorem aggregate_variance_with_gain_is_negative :
  find_fluxvar (image3 (-2)) (image3 1) (image3 1) (-18)
               (Some (image3 1)) 0 3 0 3 false = Ok (-9)%float /\
  (-9 <? 0)%float = true /\
  do_circular_photometry sample_circular (image3 (-2)) one_position one_extent
                         2 (Some (image3 1)) (Some (image3 1)) false "exact" 5
  = ([], Ok (Tuple2 [(-18)%float] [nan])).
Proof. repeat split; reflexivity. Qed.

(** What the pixelwise policy does on the same input: it adds
    data / gain per pixel first and clamps the sum. *)
Example pixelwise_variance_with_gain_is_clamped :
  find_fluxvar (image3 (-2)) (image3 1) (image3 1) (-18)
               (Some (image3 1)) 0 3 0 3 true = Ok 0%float.
Proof. reflexivity. Qed.

(** ** The annulus composer *)

(** C3 fails: the message of the [ValueError] is built first, from a
    template with the fields [{0}] and [{1}] and the single argument
    [mode]; [format] raises [IndexError] on [{1}], and no [ValueError] is
    ever raised. *)
Theorem unsupported_mode_raises_index_error :
  py_format "{0} mode is not supported for annular photometry{1}"
            ["rectangular"%string]
  = Raise (IndexError "Replacement index out of range for positional args tuple") /\
  do_annulus_photometry sample_circular sample_elliptical (image3 1) one_position
                        "rectangular" one_extent [1%float] [2%float]
                        None None true "exact" 5
  = ([], Raise (IndexError "Replacement index out of range for positional args tuple")).
Proof. split; reflexivity. Qed.

(** The same for every unsupported mode and every other argument. *)
Lemma unsupported_mode_raises co eo data positions (mode : string) ext
  inner_params outer_params error gain pixelwise_error method subpixels :
  mode <> "circular"%string -> mode <> "elliptical"%string ->
  do_annulus_photometry co eo data positions mode ext inner_params
                        outer_params error gain pixelwise_error method
                        subpixels
  = ([], Raise (IndexError "Replacement index out of range for positional args tuple")).
Proof.
  intros Hc He. unfold do_annulus_photometry.
  apply String.eqb_neq in Hc, He. rewrite Hc, He. reflexivity.
Qed.

(** With two numbered fields and two arguments the template would
    format. *)
Example py_format_two_fields :
  py_format "{0} mode is not supported for annular photometry{1}"
            ["rectangular"; "!"]%string
  = Ok "rectangular mode is not supported for annular photometry!"%string.
Proof. reflexivity. Qed.

Lemma annulus_fluxvar_ok (fluxerr_o fluxerr_i : array1) :
  length fluxerr_o = length fluxerr_i ->
  annulus_fluxvar fluxerr_o fluxerr_i
  = Ok (zip_with annulus_variance fluxerr_o fluxerr_i).
Proof.
  intros Hlen. unfold annulus_fluxvar.
  rewrite np_zip1_ok by (now rewrite !length_map). simpl. f_equal.
  clear Hlen. revert fluxerr_i.
  induction fluxerr_o as [|o os IH]; intros [|i ins]; simpl; try reflexivity.
  now rewrite IH.
Qed.

Section AnnulusFacts.

Variable co : float -> float -> float -> float -> Z -> Z -> float -> Z -> Z -> array2.
Variable eo :
  float -> float -> float -> float -> Z -> Z ->
  float -> float -> float -> Z -> Z -> array2.
Variable data : array2.
Variable positions : list position.
Variable ext : extents.
Variable error : option array2.
Variable gain : option array2.
Variable pixelwise_error : bool.
Variable method : string.
Variable subpixels : Z.

Local Abbreviation single g :=
  (single_aperture co eo g data positions ext error gain pixelwise_error
                   method subpixels).
Local Abbreviation annulus g_in g_out :=
  (do_annulus_photometry co eo data positions (mode_of g_out) ext
                         (params_of g_in) (params_of g_out) error gain
                         pixelwise_error method subpixels).

(** The composer returns what [annulus_of_tuples] makes of the two
    tuples, and raises when one of the two calls raises. *)
Lemma annulus_result (g_in g_out : geometry) :
  mode_of g_in = mode_of g_out ->
  match (single g_out).2, (single g_in).2 with
  | Ok t_o, Ok t_i => (annulus g_in g_out).2 = annulus_of_tuples error t_o t_i
  | _, _ => exists e, (annulus g_in g_out).2 = Raise e
  end.
Proof.
  intros Hmode.
  destruct g_in as [ri|ai bi ti], g_out as [ro|ao bo to]; try discriminate;
    unfold do_annulus_photometry, annulus_of_tuples, call_circular,
      call_elliptical, single_aperture; simpl;
    (destruct (do_circular_photometry co data positions ext ro error gain
                 pixelwise_error method subpixels) as [w_o [t_o|e_o]]
     || destruct (do_elliptical_photometry eo data positions ext ao bo to
                    error gain pixelwise_error method subpixels)
          as [w_o [t_o|e_o]]);
    (destruct (do_circular_photometry co data positions ext ri error gain
                 pixelwise_error method subpixels) as [w_i [t_i|e_i]]
     || destruct (do_elliptical_photometry eo data positions ext ai bi ti
                    error gain pixelwise_error method subpixels)
          as [w_i [t_i|e_i]]);
    destruct error; simpl; eauto;
    try (destruct t_o; simpl; eauto); try (destruct t_i; simpl; eauto);
    match goal with
    | |- context [annulus_fluxvar ?a ?b] => now destruct (annulus_fluxvar a b)
    end.
Qed.

End AnnulusFacts.

Lemma np_zip1_inv (f : float -> float -> float) (x y z : array1) :
  np_zip1 f x y = Ok z -> length x = length y /\ z = zip_with f x y.
Proof.
  unfold np_zip1. destruct (length x =? length y) eqn:E; [|discriminate].
  apply Nat.eqb_eq in E. intros [= <-]. auto.
Qed.

(** What the last lines of the composer return, when they return. *)
Lemma annulus_of_tuples_ok (error : option array2) (t_o t_i t : phot_tuple) :
  annulus_of_tuples error t_o t_i = Ok t ->
  phot_flux t = zip_with PrimFloat.sub (phot_flux t_o) (phot_flux t_i) /\
  (error <> None ->
   exists f_o e_o f_i e_i,
     t_o = Tuple2 f_o e_o /\ t_i = Tuple2 f_i e_i /\
     length e_o = length e_i /\
     t = Tuple2 (zip_with PrimFloat.sub f_o f_i)
                (map PrimFloat.sqrt (zip_with annulus_variance e_o e_i))).
Proof.
  unfold annulus_of_tuples. destruct error as [err|].
  - intros H.
    apply bind_ok in H as ([f_o e_o] & Ho & H).
    apply bind_ok in H as ([f_i e_i] & Hi & H).
    apply bind_ok in H as (fluxvar & Hv & H).
    apply bind_ok in H as (flux & Hf & H). injection H as <-.
    destruct t_o as [?|f_o' e_o']; [discriminate|]. injection Ho as -> ->.
    destruct t_i as [?|f_i' e_i']; [discriminate|]. injection Hi as -> ->.
    simpl in Hv, Hf.
    apply np_zip1_inv in Hf as [_ ->].
    assert (length e_o = length e_i) as Hlen.
    { unfold annulus_fluxvar in Hv. apply bind_ok in Hv as (d & Hd & _).
      apply np_zip1_inv in Hd as [Hd _]. now rewrite !length_map in Hd. }
    rewrite (annulus_fluxvar_ok _ _ Hlen) in Hv. injection Hv as <-.
    split; [reflexivity|]. intros _. now exists f_o, e_o, f_i, e_i.
  - intros H. unfold annulus_return in H.
    apply bind_ok in H as (flux & Hf & H). injection H as <-.
    apply np_zip1_inv in Hf as [_ ->]. split; [reflexivity | congruence].
Qed.

Lemma annulus_of_tuples_returns (error : option array2) (t_o t_i : phot_tuple) :
  length (phot_flux t_o) = length (phot_flux t_i) ->
  fluxerr_length t_o = fluxerr_length t_i ->
  error = None \/ (phot_len t_o = 2 /\ phot_len t_i = 2) ->
  exists t, annulus_of_tuples error t_o t_i = Ok t.
Proof.
  intros Hf He Harity. unfold annulus_of_tuples, annulus_return.
  destruct error as [err|].
  - destruct Harity as [|[Ho Hi]]; [discriminate|].
    destruct t_o as [?|f_o e_o]; [discriminate|].
    destruct t_i as [?|f_i e_i]; [discriminate|].
    simpl in *. rewrite (annulus_fluxvar_ok _ _ He). simpl.
    unfold annulus_return_err. rewrite (np_zip1_ok _ _ _ Hf). simpl. eauto.
  - rewrite (np_zip1_ok _ _ _ Hf). simpl. eauto.
Qed.

(** The two single-aperture calls of a returning annulus call. *)
Lemma annulus_singles co eo data positions ext (g_in g_out : geometry)
  error gain pixelwise_error method subpixels (w : list warning)
  (t : phot_tuple) :
  mode_of g_in = mode_of g_out ->
  do_annulus_photometry co eo data positions (mode_of g_out) ext
                        (params_of g_in) (params_of g_out) error gain
                        pixelwise_error method subpixels = (w, Ok t) ->
  exists w_o t_o w_i t_i,
    single_aperture co eo g_out data positions ext error gain
                    pixelwise_error method subpixels = (w_o, Ok t_o) /\
    single_aperture co eo g_in data positions ext error gain
                    pixelwise_error method subpixels = (w_i, Ok t_i) /\
    annulus_of_tuples error t_o t_i = Ok t.
Proof.
  intros Hmode Hcall.
  pose proof (annulus_result co eo data positions ext error gain
                pixelwise_error method subpixels g_in g_out Hmode) as H.
  rewrite Hcall in H. simpl in H.
  destruct (single_aperture co eo g_out data positions ext error gain
              pixelwise_error method subpixels) as [w_o [t_o|e_o]];
    destruct (single_aperture co eo g_in data positions ext error gain
                pixelwise_error method subpixels) as [w_i [t_i|e_i]];
    simpl in H;
    try match type of H with
        | ex _ => destruct H as [e H]; discriminate
        end.
  exists w_o, t_o, w_i, t_i. auto.
Qed.

Lemma single_aperture_shape co eo (g : geometry) data positions ext error
  gain pixelwise_error method subpixels (w : list warning) (t : phot_tuple) :
  single_aperture co eo g data positions ext error gain pixelwise_error
                  method subpixels = (w, Ok t) ->
  length (phot_flux t) = length positions /\
  fluxerr_length t = length positions.
Proof.
  rewrite single_aperture_photometer. apply do_photometry_shape.
Qed.

Lemma annulus_returns co eo data positions ext (g_in g_out : geometry)
  error gain pixelwise_error method subpixels w_o t_o w_i t_i :
  mode_of g_in = mode_of g_out ->
  single_aperture co eo g_out data positions ext error gain
                  pixelwise_error method subpixels = (w_o, Ok t_o) ->
  single_aperture co eo g_in data positions ext error gain
                  pixelwise_error method subpixels = (w_i, Ok t_i) ->
  error = None \/ (phot_len t_o = 2 /\ phot_len t_i = 2) ->
  exists w t,
    do_annulus_photometry co eo data positions (mode_of g_out) ext
                          (params_of g_in) (params_of g_out) error gain
                          pixelwise_error method subpixels = (w, Ok t) /\
    annulus_of_tuples error t_o t_i = Ok t.
Proof.
  intros Hmode Ho Hi Harity.
  pose proof (annulus_result co eo data positions ext error gain
                pixelwise_error method subpixels g_in g_out Hmode) as H.
  rewrite Ho, Hi in H. simpl in H.
  apply single_aperture_shape in Ho as [Ho1 Ho2].
  apply single_aperture_shape in Hi as [Hi1 Hi2].
  destruct (annulus_of_tuples_returns error t_o t_i) as [t Ht];
    [congruence | congruence | assumption |].
  destruct (do_annulus_photometry co eo data positions (mode_of g_out) ext
              (params_of g_in) (params_of g_out) error gain pixelwise_error
              method subpixels) as [w r].
  simpl in H. subst r. exists w, t. rewrite Ht. auto.
Qed.

(** C1: a returning annulus call has made the two single-aperture calls,
    and its flux is, position by position, the outer flux minus the
    inner flux (all three arrays have one entry per position), with or
    without an error map; and the annulus call returns whenever the two
    calls return (with their flux errors, when an error map is given). *)
Theorem annulus_flux_is_outer_minus_inner :
  forall co eo data positions ext (g_in g_out : geometry) error gain
         pixelwise_error method subpixels,
  mode_of g_in = mode_of g_out ->
  (forall w t,
     do_annulus_photometry co eo data positions (mode_of g_out) ext
                           (params_of g_in) (params_of g_out) error gain
                           pixelwise_error method subpixels = (w, Ok t) ->
     exists w_o t_o w_i t_i,
       single_aperture co eo g_out data positions ext error gain
                       pixelwise_error method subpixels = (w_o, Ok t_o) /\
       single_aperture co eo g_in data positions ext error gain
                       pixelwise_error method subpixels = (w_i, Ok t_i) /\
       length (phot_flux t_o) = length positions /\
       length (phot_flux t_i) = length positions /\
       length (phot_flux t) = length positions /\
       phot_flux t = zip_with PrimFloat.sub (phot_flux t_o) (phot_flux t_i)) /\
  (forall w_o t_o w_i t_i,
     single_aperture co eo g_out data positions ext error gain
                     pixelwise_error method subpixels = (w_o, Ok t_o) ->
     single_aperture co eo g_in data positions ext error gain
                     pixelwise_error method subpixels = (w_i, Ok t_i) ->
     error = None \/ (phot_len t_o = 2 /\ phot_len t_i = 2) ->
     exists w t,
       do_annulus_photometry co eo data positions (mode_of g_out) ext
                             (params_of g_in) (params_of g_out) error gain
                             pixelwise_error method subpixels = (w, Ok t) /\
       phot_flux t = zip_with PrimFloat.sub (phot_flux t_o) (phot_flux t_i)).
Proof.
  intros co eo data positions ext g_in g_out error gain pw method subpixels
         Hmode.
  split.
  - intros w t Hcall.
    destruct (annulus_singles _ _ _ _ _ _ _ _ _ _ _ _ _ _ Hmode Hcall)
      as (w_o & t_o & w_i & t_i & Ho & Hi & Ht).
    exists w_o, t_o, w_i, t_i.
    apply annulus_of_tuples_ok in Ht as [Ht _].
    pose proof (single_aperture_shape _ _ _ _ _ _ _ _ _ _ _ _ _ Ho) as [Ho1 _].
    pose proof (single_aperture_shape _ _ _ _ _ _ _ _ _ _ _ _ _ Hi) as [Hi1 _].
    repeat split; try assumption.
    rewrite Ht, length_zip_with. lia.
  - intros w_o t_o w_i t_i Ho Hi Harity.
    destruct (annulus_returns _ _ _ _ _ _ _ _ _ _ _ _ _ _ _ _ Hmode Ho Hi Harity)
      as (w & t & Hcall & Ht).
    exists w, t. split; [assumption|].
    now apply annulus_of_tuples_ok in Ht as [Ht _].
Qed.

Lemma annulus_flux_is_outer_minus_inner_witness :
  exists w t,
    do_annulus_photometry sample_circular sample_elliptical (image3 1)
                          two_positions "circular" (extents_of [false; true])
                          [1%float] [2%float] None None true "exact" 5
    = (w, Ok t) /\
    phot_flux t = [6.75%float; nan].
Proof.
  destruct (annulus_flux_is_outer_minus_inner sample_circular sample_elliptical
              (image3 1) two_positions (extents_of [false; true])
              (Circle 1) (Circle 2) None None true "exact" 5 eq_refl)
    as [_ Hreturns].
  destruct (Hreturns [AstropyUserWarning [(9, 9)%float]]
                     (Tuple1 [9%float; nan])
                     [AstropyUserWarning [(9, 9)%float]]
                     (Tuple1 [2.25%float; nan])
                     eq_refl eq_refl (or_introl eq_refl))
    as (w & t & Hcall & Hflux).
  exists w, t. split; [exact Hcall | exact Hflux].
Defined.

Lemma zip_with_annulus_variance (fluxerr_o fluxerr_i : array1) :
  zip_with annulus_variance fluxerr_o fluxerr_i
  = zip_with clamped_difference fluxerr_o fluxerr_i.
Proof.
  revert fluxerr_i.
  induction fluxerr_o as [|o os IH]; intros [|i ins]; simpl; try reflexivity.
  rewrite IH. f_equal. apply np_maximum_clamp.
Qed.

(** C7: with an error map, a returning annulus call has got a flux error
    per position from each of the two single-aperture calls; the variance
    it forms at a position is max(outer flux error squared - inner flux
    error squared, 0), that is: the difference of the squares when that
    is at least zero, zero when it is negative, NaN when it is NaN; the
    second array it returns holds the square roots of these variances;
    and it returns whenever the two calls return their pairs. *)
Theorem annulus_variance_is_clamped_difference :
  forall co eo data positions ext (g_in g_out : geometry) err gain
         pixelwise_error method subpixels,
  mode_of g_in = mode_of g_out ->
  (forall w t,
     do_annulus_photometry co eo data positions (mode_of g_out) ext
                           (params_of g_in) (params_of g_out) (Some err) gain
                           pixelwise_error method subpixels = (w, Ok t) ->
     exists w_o f_o e_o w_i f_i e_i,
       single_aperture co eo g_out data positions ext (Some err) gain
                       pixelwise_error method subpixels
       = (w_o, Ok (Tuple2 f_o e_o)) /\
       single_aperture co eo g_in data positions ext (Some err) gain
                       pixelwise_error method subpixels
       = (w_i, Ok (Tuple2 f_i e_i)) /\
       length e_o = length positions /\
       length e_i = length positions /\
       t = Tuple2 (zip_with PrimFloat.sub f_o f_i)
                  (map PrimFloat.sqrt (zip_with clamped_difference e_o e_i))) /\
  (forall w_o f_o e_o w_i f_i e_i,
     single_aperture co eo g_out data positions ext (Some err) gain
                     pixelwise_error method subpixels
     = (w_o, Ok (Tuple2 f_o e_o)) ->
     single_aperture co eo g_in data positions ext (Some err) gain
                     pixelwise_error method subpixels
     = (w_i, Ok (Tuple2 f_i e_i)) ->
     exists w,
       do_annulus_photometry co eo data positions (mode_of g_out) ext
                             (params_of g_in) (params_of g_out) (Some err)
                             gain pixelwise_error method subpixels
       = (w, Ok (Tuple2 (zip_with PrimFloat.sub f_o f_i)
                        (map PrimFloat.sqrt
                             (zip_with clamped_difference e_o e_i))))) /\
  (forall o i : float,
     ((0 <=? o * o - i * i)%float = true ->
      clamped_difference o i = (o * o - i * i)%float) /\
     ((o * o - i * i <? 0)%float = true ->
      clamped_difference o i = 0%float) /\
     (is_nan (o * o - i * i) = true ->
      is_nan (clamped_difference o i) = true)).
Proof.
  intros co eo data positions ext g_in g_out err gain pw method subpixels
         Hmode.
  split; [|split].
  - intros w t Hcall.
    destruct (annulus_singles _ _ _ _ _ _ _ _ _ _ _ _ _ _ Hmode Hcall)
      as (w_o & t_o & w_i & t_i & Ho & Hi & Ht).
    apply annulus_of_tuples_ok in Ht as [_ Ht].
    destruct (Ht ltac:(discriminate))
      as (f_o & e_o & f_i & e_i & -> & -> & _ & ->).
    pose proof (single_aperture_shape _ _ _ _ _ _ _ _ _ _ _ _ _ Ho) as [_ Ho2].
    pose proof (single_aperture_shape _ _ _ _ _ _ _ _ _ _ _ _ _ Hi) as [_ Hi2].
    exists w_o, f_o, e_o, w_i, f_i, e_i.
    rewrite zip_with_annulus_variance. auto.
  - intros w_o f_o e_o w_i f_i e_i Ho Hi.
    destruct (annulus_returns _ _ _ _ _ _ _ _ _ _ _ _ _ _ _ _ Hmode Ho Hi)
      as (w & t & Hcall & Ht); [right; auto|].
    apply annulus_of_tuples_ok in Ht as [_ Ht].
    destruct (Ht ltac:(discriminate))
      as (f_o' & e_o' & f_i' & e_i' & [= <- <-] & [= <- <-] & _ & ->).
    exists w. now rewrite <- zip_with_annulus_variance.
  - intros o i. unfold clamped_difference.
    destruct (clamp_at_zero_cases (o * o - i * i)%float)
      as [[Hn ->] | [(Hn & Hlt & Hle & ->) | (Hn & Hlt & Hle & ->)]];
      repeat split; intros H; congruence || auto.
    destruct (nan_not_compared _ Hn). congruence.
Qed.

Lemma annulus_variance_is_clamped_difference_witness :
  (clamped_difference 6 3 = 27%float /\
   exists w,
     do_annulus_photometry sample_circular sample_elliptical (image3 1)
                           one_position "elliptical" one_extent
                           [1; 1; 0]%float [2; 1; 0]%float
                           (Some (image3 2)) None true "subpixel" 5
     = (w, Ok (Tuple2 [6.75%float] [PrimFloat.sqrt 27]))) /\
  (clamped_difference 3 6 = 0%float /\ (3 * 3 - 6 * 6 <? 0)%float = true /\
   exists w,
     do_annulus_photometry sample_circular sample_elliptical (image3 1)
                           one_position "elliptical" one_extent
                           [2; 1; 0]%float [1; 1; 0]%float
                           (Some (image3 2)) None true "subpixel" 5
     = (w, Ok (Tuple2 [(-6.75)%float] [0%float]))).
Proof.
  split.
  - split; [reflexivity|].
    destruct (annulus_variance_is_clamped_difference sample_circular
                sample_elliptical (image3 1) one_position one_extent
                (Ellipse 1 1 0) (Ellipse 2 1 0) (image3 2) None
                true "subpixel" 5 eq_refl)
      as (_ & Hreturns & _).
    destruct (Hreturns [] [9%float] [6%float] [] [2.25%float] [3%float]
                       eq_refl eq_refl)
      as (w & Hcall).
    exists w. exact Hcall.
  - split; [reflexivity|]. split; [reflexivity|].
    destruct (annulus_variance_is_clamped_difference sample_circular
                sample_elliptical (image3 1) one_position one_extent
                (Ellipse 2 1 0) (Ellipse 1 1 0) (image3 2) None
                true "subpixel" 5 eq_refl)
      as (_ & Hreturns & _).
    destruct (Hreturns [] [2.25%float] [3%float] [] [9%float] [6%float]
                       eq_refl eq_refl)
      as (w & Hcall).
    exists w. exact Hcall.
Defined.

(** C10, as amended: with an error map, at least one position and all
    positions flagged out-of-data, the first single-aperture call of
    [do_annulus_photometry] returns the 1-tuple of the NaN flux, the
    composer unpacks it into two values, and the call raises the
    [ValueError] of the unpacking; nothing is returned. *)
Theorem annulus_all_out_of_data_raises :
  forall co eo data positions ext (g_in g_out : geometry) err gain
         pixelwise_error method subpixels,
  mode_of g_in = mode_of g_out ->
  positions <> [] ->
  all_out_of_data ext positions ->
  do_annulus_photometry co eo data positions (mode_of g_out) ext
                        (params_of g_in) (params_of g_out) (Some err) gain
                        pixelwise_error method subpixels
  = ([AstropyUserWarning positions],
     Raise (ValueError "not enough values to unpack (expected 2, got 1)")).
Proof.
  intros co eo data positions ext g_in g_out err gain pw method subpixels
         Hmode Hne Hall.
  pose proof (single_aperture_all_out_of_data co eo g_in data positions ext
                (Some err) gain pw method subpixels Hne Hall) as Hi.
  pose proof (single_aperture_all_out_of_data co eo g_out data positions ext
                (Some err) gain pw method subpixels Hne Hall) as Ho.
  destruct g_in, g_out; try discriminate; simpl in Hi, Ho;
    unfold do_annulus_photometry, call_circular, call_elliptical; simpl;
    rewrite ?Hi, ?Ho; reflexivity.
Qed.

Lemma annulus_all_out_of_data_raises_witness :
  do_annulus_photometry sample_circular sample_elliptical (image3 1)
                        two_positions "circular" (extents_of [true; true])
                        [1%float] [2%float] (Some (image3 2)) None true
                        "exact" 5
  = ([AstropyUserWarning two_positions],
     Raise (ValueError "not enough values to unpack (expected 2, got 1)")).
Proof.
  apply (annulus_all_out_of_data_raises sample_circular sample_elliptical
           (image3 1) two_positions (extents_of [true; true])
           (Circle 1) (Circle 2)).
  - reflexivity.
  - discriminate.
  - split; [reflexivity|].
    intros [|[|i]] Hi; [reflexivity | reflexivity | simpl in Hi; lia].
Defined.

(** C10, as stated, fails on an empty list of positions: no position is
    then left unflagged, both single-aperture calls return pairs, and so
    does the composer. *)
Lemma annulus_no_position_returns :
  all_out_of_data no_extents [] /\
  do_annulus_photometry sample_circular sample_elliptical (image3 1) []
                        "circular" no_extents [1%float] [2%float]
                        (Some (image3 2)) None true "exact" 5
  = ([], Ok (Tuple2 [] [])).
Proof.
  split; [|reflexivity].
  split; [reflexivity|]. intros i Hi. simpl in Hi. lia.
Qed.

(** ** Further properties *)

(** The flux that [measure] returns is the sum, over the clipped window
    of the position, of data times overlap fraction. *)
Lemma measure_flux overlap data ext error gain pixelwise_error
  use_exact subpixels (i : nat) (m : float * float) :
  measure overlap data ext error gain pixelwise_error use_exact subpixels i
  = Ok m ->
  exists xp0 xp1 yp0 yp1 x0 x1 y0 y1,
    x_pmin ext !! i = Some xp0 /\ x_pmax ext !! i = Some xp1 /\
    y_pmin ext !! i = Some yp0 /\ y_pmax ext !! i = Some yp1 /\
    x_min ext !! i = Some x0 /\ x_max ext !! i = Some x1 /\
    y_min ext !! i = Some y0 /\ y_max ext !! i = Some y1 /\
    m.1 = np_sum2 (zip_with (zip_with PrimFloat.mul)
                     (np_slice2 data y0 y1 x0 x1)
                     (overlap xp0 xp1 yp0 yp1 (x1 - x0)%Z (y1 - y0)%Z
                              use_exact subpixels)).
Proof.
  unfold measure, getitem. intros H.
  destruct (x_pmin ext !! i) as [xp0|]; [|discriminate].
  destruct (x_pmax ext !! i) as [xp1|]; [|discriminate].
  destruct (y_pmin ext !! i) as [yp0|]; [|discriminate].
  destruct (y_pmax ext !! i) as [yp1|]; [|discriminate].
  destruct (x_max ext !! i) as [x1|]; [|discriminate].
  destruct (x_min ext !! i) as [x0|]; [|discriminate].
  destruct (y_max ext !! i) as [y1|]; [|discriminate].
  destruct (y_min ext !! i) as [y0|]; [|discriminate].
  simpl in H. apply bind_ok in H as (weighted & Hw & H).
  unfold np_zip2 in Hw. destruct (same_shape _ _); [|discriminate].
  injection Hw as <-.
  exists xp0, xp1, yp0, yp1, x0, x1, y0, y1. repeat split.
  destruct error as [err|].
  - apply bind_ok in H as (v & _ & H). now injection H as <-.
  - now injection H as <-.
Qed.

(** X1: a returned flux array has one entry per position, and so has a
    returned array of flux errors. *)
Theorem flux_has_one_entry_per_position :
  forall co eo (g : geometry) data positions ext error gain pixelwise_error
         method subpixels w t,
  single_aperture co eo g data positions ext error gain pixelwise_error
                  method subpixels = (w, Ok t) ->
  length (phot_flux t) = length positions /\
  fluxerr_length t = length positions.
Proof. intros. eapply single_aperture_shape; eassumption. Qed.

Lemma flux_has_one_entry_per_position_witness :
  length [9%float; nan] = length two_positions /\
  length [6%float; 0%float] = length two_positions.
Proof.
  apply (flux_has_one_entry_per_position sample_circular sample_elliptical
           (Circle 2) (image3 1) two_positions (extents_of [false; true])
           (Some (image3 2)) None true "exact" 5
           [AstropyUserWarning [(9, 9)%float]]
           (Tuple2 [9%float; nan] [6%float; 0%float])).
  reflexivity.
Defined.

(** X2: every mode other than ['circular'] and ['elliptical'] ends in
    the [IndexError] of [format], whatever the other arguments. *)
Theorem every_unsupported_mode_raises_index_error :
  forall co eo data positions (mode : string) ext inner_params outer_params
         error gain pixelwise_error method subpixels,
  mode <> "circular"%string -> mode <> "elliptical"%string ->
  do_annulus_photometry co eo data positions mode ext inner_params
                        outer_params error gain pixelwise_error method
                        subpixels
  = ([], Raise (IndexError "Replacement index out of range for positional args tuple")).
Proof. intros. now apply unsupported_mode_raises. Qed.

Lemma every_unsupported_mode_raises_index_error_witness :
  do_annulus_photometry sample_circular sample_elliptical (image3 1)
                        two_positions "circle" (extents_of [false; true])
                        [1%float] [2%float] (Some (image3 2)) None true
                        "exact" 5
  = ([], Raise (IndexError "Replacement index out of range for positional args tuple")).
Proof.
  apply every_unsupported_mode_raises_index_error; discriminate.
Defined.

(** X3: a variance of the pixelwise policy is never below zero: it is
    NaN or at least zero, with or without a gain. *)
Theorem pixelwise_variance_not_negative :
  forall data fraction error flux gain imin imax jmin jmax v,
  find_fluxvar data fraction error flux gain imin imax jmin jmax true = Ok v ->
  is_nan v = true \/ (0 <=? v)%float = true.
Proof.
  intros data fraction error flux gain imin imax jmin jmax v H.
  apply find_fluxvar_pixelwise_clamped in H as [s ->].
  destruct (is_nan s) eqn:Hs.
  - left. unfold np_maximum. now rewrite Hs, orb_true_r.
  - right. now apply np_maximum_nonneg.
Qed.

Lemma pixelwise_variance_not_negative_witness :
  is_nan 0 = true \/ (0 <=? 0)%float = true.
Proof.
  apply (pixelwise_variance_not_negative (image3 (-2)) (image3 1) (image3 1)
           (-18) (Some (image3 1)) 0 3 0 3 0).
  reflexivity.
Defined.

(** X4: so is a variance of the aggregate policy when no gain is given. *)
Theorem aggregate_variance_without_gain_not_negative :
  forall data fraction error flux imin imax jmin jmax v,
  find_fluxvar data fraction error flux None imin imax jmin jmax false = Ok v ->
  is_nan v = true \/ (0 <=? v)%float = true.
Proof.
  intros data fraction error flux imin imax jmin jmax v H.
  unfold find_fluxvar in H. apply bind_ok in H as (e & _ & H).
  injection H as <-.
  destruct (is_nan (square e * np_sum2 fraction)) eqn:Hs.
  - left. unfold np_maximum. now rewrite Hs, orb_true_r.
  - right. now apply np_maximum_nonneg.
Qed.

Lemma aggregate_variance_without_gain_not_negative_witness :
  is_nan 9 = true \/ (0 <=? 9)%float = true.
Proof.
  apply (aggregate_variance_without_gain_not_negative (image3 (-2))
           (image3 1) (image3 1) (-18) 0 3 0 3 9).
  reflexivity.
Defined.

(** X5: and so is the variance that the annulus composer forms at a
    position. *)
Theorem annulus_variance_not_negative :
  forall fluxerr_o fluxerr_i : float,
  is_nan (annulus_variance fluxerr_o fluxerr_i) = true \/
  (0 <=? annulus_variance fluxerr_o fluxerr_i)%float = true.
Proof.
  intros o i. unfold annulus_variance.
  destruct (is_nan (o * o - i * i)) eqn:Hs.
  - left. unfold np_maximum. now rewrite Hs, orb_true_r.
  - right. now apply np_maximum_nonneg.
Qed.

(** ** Windows inside the image *)

Lemma slice_bound_in_range (n : nat) (k : Z) :
  (0 <= k <= Z.of_nat n)%Z -> slice_bound n k = Z.to_nat k.
Proof.
  intros Hk. unfold slice_bound.
  destruct (k <? 0)%Z eqn:E; [apply Z.ltb_lt in E; lia|].
  f_equal. lia.
Qed.

Lemma py_slice_length {A : Type} (lo hi : Z) (l : list A) :
  (0 <= lo <= hi)%Z -> (hi <= Z.of_nat (length l))%Z ->
  length (py_slice lo hi l) = Z.to_nat (hi - lo).
Proof.
  intros Hlo Hhi. unfold py_slice.
  rewrite !slice_bound_in_range by lia.
  rewrite length_take, length_drop. lia.
Qed.

Lemma py_slice_Forall {A : Type} (P : A -> Prop) (lo hi : Z) (l : list A) :
  Forall P l -> Forall P (py_slice lo hi l).
Proof. intros H. unfold py_slice. now apply Forall_take, Forall_drop. Qed.

(** A window cut inside an image has the shape its bounds say. *)
Lemma np_slice2_shape (a : array2) (H W : nat) (y0 y1 x0 x1 : Z) :
  has_shape a H W ->
  (0 <= y0 <= y1)%Z -> (y1 <= Z.of_nat H)%Z ->
  (0 <= x0 <= x1)%Z -> (x1 <= Z.of_nat W)%Z ->
  has_shape (np_slice2 a y0 y1 x0 x1) (Z.to_nat (y1 - y0)) (Z.to_nat (x1 - x0)).
Proof.
  intros [Hrows Hcols] Hy0 Hy1 Hx0 Hx1. unfold np_slice2. split.
  - rewrite length_map. apply py_slice_length; [assumption | lia].
  - apply List.Forall_map. apply py_slice_Forall.
    eapply Forall_impl; [exact Hcols|].
    intros row Hrow. simpl in *. apply py_slice_length; [assumption | lia].
Qed.

Lemma same_shape_of_shapes (a b : array2) (n m : nat) :
  has_shape a n m -> has_shape b n m -> same_shape a b = true.
Proof.
  intros [Ha Hra] [Hb Hrb]. subst n. revert b Hb Hrb.
  induction a as [|r a IH]; intros [|s b] Hb Hrb; simpl in *;
    try reflexivity; try discriminate.
  apply Forall_cons in Hra as [Hr Hra]. apply Forall_cons in Hrb as [Hs Hrb].
  rewrite Hr, Hs, Nat.eqb_refl. simpl. apply IH; [assumption | lia | assumption].
Qed.

Lemma zip_with_shape (f : float -> float -> float) (a b : array2) (n m : nat) :
  has_shape a n m -> has_shape b n m ->
  has_shape (zip_with (zip_with f) a b) n m.
Proof.
  intros [Ha Hra] [Hb Hrb]. subst n. revert b Hb Hrb.
  induction a as [|r a IH]; intros [|s b] Hb Hrb; simpl in *;
    try discriminate; try (split; [reflexivity | constructor]).
  apply Forall_cons in Hra as [Hr Hra]. apply Forall_cons in Hrb as [Hs Hrb].
  destruct (IH Hra b ltac:(lia) Hrb) as [Hlen Hall].
  split; [simpl; lia|]. constructor; [|assumption].
  rewrite length_zip_with. lia.
Qed.

Lemma map_shape (f : float -> float) (a : array2) (n m : nat) :
  has_shape a n m -> has_shape (map (map f) a) n m.
Proof.
  intros [Ha Hra]. split; [now rewrite length_map|].
  apply List.Forall_map. eapply Forall_impl; [exact Hra|].
  intros row Hrow. simpl. now rewrite length_map.
Qed.

Lemma np_zip2_shapes (f : float -> float -> float) (a b : array2) (n m : nat) :
  has_shape a n m -> has_shape b n m ->
  np_zip2 f a b = Ok (zip_with (zip_with f) a b).
Proof.
  intros Ha Hb. unfold np_zip2. now rewrite (same_shape_of_shapes a b n m).
Qed.

(** A measurement inside the image returns. *)
Lemma measure_window_returns :
  forall overlap data ext error gain pixelwise_error use_exact subpixels
         (i H W : nat) xp0 xp1 yp0 yp1 x0 x1 y0 y1,
  has_shape data H W ->
  match error with
  | None => True
  | Some err =>
      pixelwise_error = true /\ has_shape err H W /\
      match gain with
      | None => True
      | Some g => has_shape g H W
      end
  end ->
  x_pmin ext !! i = Some xp0 -> x_pmax ext !! i = Some xp1 ->
  y_pmin ext !! i = Some yp0 -> y_pmax ext !! i = Some yp1 ->
  x_min ext !! i = Some x0 -> x_max ext !! i = Some x1 ->
  y_min ext !! i = Some y0 -> y_max ext !! i = Some y1 ->
  (0 <= x0 <= x1)%Z -> (x1 <= Z.of_nat W)%Z ->
  (0 <= y0 <= y1)%Z -> (y1 <= Z.of_nat H)%Z ->
  has_shape (overlap xp0 xp1 yp0 yp1 (x1 - x0)%Z (y1 - y0)%Z
                     use_exact subpixels)
            (Z.to_nat (y1 - y0)) (Z.to_nat (x1 - x0)) ->
  exists m,
    measure overlap data ext error gain pixelwise_error use_exact subpixels i
    = Ok m /\
    m.1 = np_sum2 (zip_with (zip_with PrimFloat.mul)
                     (np_slice2 data y0 y1 x0 x1)
                     (overlap xp0 xp1 yp0 yp1 (x1 - x0)%Z (y1 - y0)%Z
                              use_exact subpixels)).
Proof.
  intros overlap data ext error gain pw ue sp i H W xp0 xp1 yp0 yp1
         x0 x1 y0 y1 Hdata Herr Hxp0 Hxp1 Hyp0 Hyp1 Hx0 Hx1 Hy0 Hy1
         Bx0 Bx1 By0 By1 Hgrid.
  unfold measure, getitem.
  rewrite Hxp0, Hxp1, Hyp0, Hyp1, Hx0, Hx1, Hy0, Hy1. simpl.
  pose proof (fun a Ha => np_slice2_shape a H W y0 y1 x0 x1 Ha By0 By1 Bx0 Bx1)
    as Hwin.
  rewrite (np_zip2_shapes _ _ _ _ _ (Hwin data Hdata) Hgrid). simpl.
  destruct error as [err|]; [|eauto].
  destruct Herr as (-> & Herr & Hgain). unfold find_fluxvar.
  pose proof (map_shape square _ _ _ (Hwin err Herr)) as Hsub.
  destruct gain as [g|].
  - rewrite (np_zip2_shapes _ _ _ _ _ (Hwin data Hdata) (Hwin g Hgain)). simpl.
    pose proof (zip_with_shape PrimFloat.div _ _ _ _
                  (Hwin data Hdata) (Hwin g Hgain)) as Hq.
    rewrite (np_zip2_shapes _ _ _ _ _ Hsub Hq). simpl.
    rewrite (np_zip2_shapes _ _ _ _ _
               (zip_with_shape PrimFloat.add _ _ _ _ Hsub Hq) Hgrid).
    simpl. eauto.
  - simpl. rewrite (np_zip2_shapes _ _ _ _ _ Hsub Hgrid). simpl. eauto.
Qed.

(** X6: for a window that lies inside the image, with extents present
    for the position and an overlap grid of the shape of the window, the
    measurement of the position returns, without an error map as well as
    with one under the pixelwise policy (error and gain maps of the shape
    of the image); the flux is the sum of data times overlap fraction
    over the window. *)
Theorem measure_in_bounds_returns :
  forall overlap data ext error gain pixelwise_error use_exact subpixels
         (i H W : nat) xp0 xp1 yp0 yp1 x0 x1 y0 y1,
  has_shape data H W ->
  match error with
  | None => True
  | Some err =>
      pixelwise_error = true /\ has_shape err H W /\
      match gain with
      | None => True
      | Some g => has_shape g H W
      end
  end ->
  x_pmin ext !! i = Some xp0 -> x_pmax ext !! i = Some xp1 ->
  y_pmin ext !! i = Some yp0 -> y_pmax ext !! i = Some yp1 ->
  x_min ext !! i = Some x0 -> x_max ext !! i = Some x1 ->
  y_min ext !! i = Some y0 -> y_max ext !! i = Some y1 ->
  (0 <= x0 <= x1)%Z -> (x1 <= Z.of_nat W)%Z ->
  (0 <= y0 <= y1)%Z -> (y1 <= Z.of_nat H)%Z ->
  has_shape (overlap xp0 xp1 yp0 yp1 (x1 - x0)%Z (y1 - y0)%Z
                     use_exact subpixels)
            (Z.to_nat (y1 - y0)) (Z.to_nat (x1 - x0)) ->
  exists m,
    measure overlap data ext error gain pixelwise_error use_exact subpixels i
    = Ok m /\
    m.1 = np_sum2 (zip_with (zip_with PrimFloat.mul)
                     (np_slice2 data y0 y1 x0 x1)
                     (overlap xp0 xp1 yp0 yp1 (x1 - x0)%Z (y1 - y0)%Z
                              use_exact subpixels)).
Proof. intros. eapply measure_window_returns; eassumption. Qed.

Lemma measure_in_bounds_returns_witness :
  exists m,
    measure (overlap_of sample_circular sample_elliptical (Circle 1))
            (image3 1) one_extent (Some (image3 2)) (Some (image3 4)) true
            1 1 0
    = Ok m /\
    m.1 = 2.25%float.
Proof.
  apply (measure_in_bounds_returns
           (overlap_of sample_circular sample_elliptical (Circle 1))
           (image3 1) one_extent (Some (image3 2)) (Some (image3 4)) true
           1 1 0 3 3 (-1.5) 1.5 (-1.5) 1.5 0 3 0 3);
    try reflexivity; try lia;
    repeat (split; [reflexivity|]); repeat constructor.
Defined.

(** ** The pixel that the aggregate policy samples *)

Lemma center_index_bounds (lo hi : Z) :
  (0 <= lo)%Z -> (lo <= hi)%Z ->
  (lo <= center_index lo hi <= hi)%Z /\
  ((center_index lo hi < hi)%Z <-> (lo + 2 <= hi)%Z).
Proof.
  intros Hlo Hhi.
  rewrite center_index_floor, midpoint_pixel_div by lia.
  pose proof (Z.div_mod (lo + hi + 1) 2 ltac:(lia)) as Hdiv.
  pose proof (Z.mod_pos_bound (lo + hi + 1) 2 ltac:(lia)) as Hmod.
  lia.
Qed.

(** X7: for a window [lo, hi) of pixel indices, the index
    [int((lo + hi) / 2 + 0.5)] lies between [lo] and [hi]; it lies in the
    window when the window is at least two pixels wide, and is [hi]
    itself, the first index past the window, otherwise. *)
Theorem center_index_in_window :
  forall lo hi : Z,
  (0 <= lo)%Z -> (lo <= hi)%Z ->
  (lo <= center_index lo hi <= hi)%Z /\
  ((center_index lo hi < hi)%Z <-> (lo + 2 <= hi)%Z).
Proof. intros. now apply center_index_bounds. Qed.

Lemma center_index_in_window_witness :
  ((3 <= center_index 3 4 <= 4)%Z /\
   ((center_index 3 4 < 4)%Z <-> (3 + 2 <= 4)%Z)) /\
  center_index 3 4 = 4%Z /\ center_index 0 3 = 2%Z.
Proof.
  split; [apply center_index_in_window; lia | split; reflexivity].
Defined.

Lemma np_index_raises (n : nat) (k : Z) (e : exn) :
  np_index n k = Raise e -> e = IndexError "index out of bounds".
Proof.
  unfold np_index.
  destruct ((0 <=? k) && (k <? Z.of_nat n))%Z; [discriminate|].
  destruct ((- Z.of_nat n <=? k) && (k <? 0))%Z; [discriminate|].
  now intros [= <-].
Qed.

Lemma np_index_past_end (n : nat) :
  0 < n -> np_index n (Z.of_nat n) = Raise (IndexError "index out of bounds").
Proof.
  intros Hn. unfold np_index.
  destruct (Z.ltb_spec (Z.of_nat n) (Z.of_nat n)); [lia|].
  rewrite andb_false_r.
  destruct (Z.ltb_spec (Z.of_nat n) 0); [lia|].
  now rewrite andb_false_r.
Qed.

Lemma np_getitem2_raises (a : array2) (j i : Z) (e : exn) :
  np_getitem2 a j i = Raise e -> e = IndexError "index out of bounds".
Proof.
  unfold np_getitem2, getitem.
  destruct (np_index (length a) j) as [r|e1] eqn:Hr; simpl;
    [|intros [= <-]; now apply np_index_raises in Hr].
  destruct (a !! r) as [row|]; simpl; [|now intros [= <-]].
  destruct (np_index (length row) i) as [c|e2] eqn:Hc; simpl;
    [|intros [= <-]; now apply np_index_raises in Hc].
  destruct (row !! c); [discriminate | now intros [= <-]].
Qed.

(** X8: under the aggregate policy a window that is one pixel wide and
    ends with the last column of the error map (or one pixel high and
    ends with its last row) makes [find_fluxvar] raise [IndexError]: the
    pixel it samples is the first one past the window, which is past the
    map. *)
Theorem aggregate_window_at_far_edge_raises :
  forall data fraction (error : array2) flux gain imin imax jmin jmax,
  ((1 <= jmax)%Z /\ jmax = Z.of_nat (length error) /\ jmin = (jmax - 1)%Z) \/
  ((1 <= imax)%Z /\ Forall (fun row => length row = Z.to_nat imax) error /\
   imin = (imax - 1)%Z) ->
  find_fluxvar data fraction error flux gain imin imax jmin jmax false
  = Raise (IndexError "index out of bounds").
Proof.
  intros data fraction error flux gain imin imax jmin jmax Hedge.
  unfold find_fluxvar.
  destruct (np_getitem2 error (center_index jmin jmax) (center_index imin imax))
    as [v|e] eqn:Hget; simpl;
    [exfalso | now apply np_getitem2_raises in Hget as ->].
  unfold np_getitem2, getitem in Hget.
  destruct Hedge as [(Hj & -> & ->) | (Hi & Hrows & ->)].
  - assert (center_index (Z.of_nat (length error) - 1) (Z.of_nat (length error))
            = Z.of_nat (length error)) as Hc.
    { apply Z.le_antisymm;
        pose proof (center_index_bounds
                      (Z.of_nat (length error) - 1) (Z.of_nat (length error))
                      ltac:(lia) ltac:(lia)) as [Hb Hw]; lia. }
    rewrite Hc, np_index_past_end in Hget by lia. discriminate.
  - assert (center_index (imax - 1) imax = imax) as Hc.
    { apply Z.le_antisymm;
        pose proof (center_index_bounds (imax - 1) imax
                      ltac:(lia) ltac:(lia)) as [Hb Hw]; lia. }
    rewrite Hc in Hget.
    destruct (np_index (length error) (center_index jmin jmax)) as [r|];
      simpl in Hget; [|discriminate].
    destruct (error !! r) as [row|] eqn:Hrow; simpl in Hget; [|discriminate].
    rewrite Forall_lookup in Hrows. rewrite (Hrows r row Hrow) in Hget.
    replace imax with (Z.of_nat (Z.to_nat imax)) in Hget at 2 by lia.
    rewrite np_index_past_end in Hget by lia. discriminate.
Qed.

Lemma aggregate_window_at_far_edge_raises_witness :
  find_fluxvar (image3 1) [[1%float]; [1%float]; [1%float]] (image3 1) 3
               None 2 3 0 3 false
  = Raise (IndexError "index out of bounds").
Proof.
  apply aggregate_window_at_far_edge_raises. right.
  split; [lia|]. split; [repeat constructor | reflexivity].
Defined.

(** ** What a returning photometer has computed *)

Lemma lookup_map {A B : Type} (f : A -> B) (l : list A) (i : nat) :
  map f l !! i = option_map f (l !! i).
Proof.
  revert i. induction l as [|x l IH]; intros [|i]; simpl; auto.
Qed.

Lemma np_count_zero_lookup (mask : list bool) (i : nat) :
  np_count mask = 0 -> mask !! i <> Some true.
Proof.
  revert i. induction mask as [|b mask IH]; intros i Hc; [now destruct i|].
  simpl in Hc. destruct b; [lia|].
  destruct i as [|i]; simpl; [discriminate | now apply IH].
Qed.


Section LoopInversion.

Variable overlap : float -> float -> float -> float -> Z -> Z -> Z -> Z -> array2.
Variable data : array2.
Variable ext : extents.
Variable error : option array2.
Variable gain : option array2.
Variable pixelwise_error : bool.
Variables use_exact subpixels : Z.

Local Abbreviation measure_at :=
  (measure overlap data ext error gain pixelwise_error use_exact subpixels).
Local Abbreviation body :=
  (loop_body overlap data ext error gain pixelwise_error use_exact subpixels).
Local Abbreviation loop :=
  (photometry_loop overlap data ext error gain pixelwise_error use_exact subpixels).

Lemma loop_body_other (j i : nat) (st st' : array1 * array1) :
  body j st = Ok st' -> i <> j ->
  st'.1 !! i = st.1 !! i /\ st'.2 !! i = st.2 !! i.
Proof.
  intros H Hij.
  apply loop_body_cases in H as (x & _ & [[_ ->] | (_ & m & _ & -> & ->)]);
    [auto|].
  split; [now apply list_lookup_insert_ne|].
  destruct error; [now apply list_lookup_insert_ne | reflexivity].
Qed.


(** ... and nothing at a position whose flux is NaN. *)
Lemma photometry_loop_keeps_nan (idx : list nat) (i : nat) (x : float) :
  forall st st',
  loop idx st = Ok st' -> st.1 !! i = Some x -> is_nan x = true ->
  st'.1 !! i = Some x /\ st'.2 !! i = st.2 !! i.
Proof.
  induction idx as [|j idx IH]; simpl; intros st st' H Hx Hnan.
  - injection H as <-. auto.
  - apply bind_ok in H as (st1 & Hb & H).
    assert (st1.1 !! i = st.1 !! i /\ st1.2 !! i = st.2 !! i) as [E1 E2].
    { destruct (decide (i = j)) as [->|Hij]; [|now apply (loop_body_other j)].
      apply loop_body_cases in Hb as (y & Hy & [[_ ->] | (Hn & _)]); [auto|].
      congruence. }
    rewrite <- E1 in Hx. destruct (IH _ _ H Hx Hnan) as [-> ->]. auto.
Qed.


End LoopInversion.

Section PhotometerInversion.

Variable overlap : float -> float -> float -> float -> Z -> Z -> Z -> Z -> array2.
Variable data : array2.
Variable positions : list position.
Variable ext : extents.
Variable error : option array2.
Variable gain : option array2.
Variable pixelwise_error : bool.
Variable method : string.
Variable subpixels : Z.

Local Abbreviation main :=
  (photometry_main overlap data ext error gain pixelwise_error method subpixels).
Local Abbreviation photometer :=
  (do_photometry overlap data positions ext error gain pixelwise_error
                 method subpixels).
Local Abbreviation zeros := (replicate (length positions) 0%float).
Local Abbreviation measure_at :=
  (measure overlap data ext error gain pixelwise_error
           (resolve_method method subpixels).1
           (resolve_method method subpixels).2).

(** The three ways in which the photometer returns. *)
Lemma do_photometry_ok_cases (w : list warning) (t : phot_tuple) :
  photometer = (w, Ok t) ->
  (np_count (ood_filter ext) = 0 /\ main zeros zeros = Ok t) \/
  (np_count (ood_filter ext) <> 0 /\
   length (ood_filter ext) = length positions /\
   ((np_count (ood_filter ext) = length positions /\
     t = Tuple1 (marked_flux (ood_filter ext) (length positions))) \/
    (np_count (ood_filter ext) <> length positions /\
     main (marked_flux (ood_filter ext) (length positions)) zeros = Ok t))).
Proof.
  unfold do_photometry, quiet, np_setmask, np_getmask.
  rewrite length_replicate.
  destruct (Nat.eqb_spec (np_count (ood_filter ext)) 0) as [E0|E0]; simpl.
  - intros [= _ H]. auto.
  - destruct (Nat.eqb_spec (length (ood_filter ext)) (length positions))
      as [El|El]; [|discriminate].
    fold (marked_flux (ood_filter ext) (length positions)).
    destruct (Nat.eqb_spec (np_count (ood_filter ext)) (length positions))
      as [En|En]; intros [= _ H]; right; auto.
Qed.

Lemma photometry_main_inv (flux fluxvar : array1) (t : phot_tuple) :
  main flux fluxvar = Ok t ->
  exists st,
    photometry_loop overlap data ext error gain pixelwise_error
                    (resolve_method method subpixels).1
                    (resolve_method method subpixels).2
                    (seq 0 (length flux)) (flux, fluxvar) = Ok st /\
    phot_flux t = st.1 /\
    (forall f e, t = Tuple2 f e ->
       error <> None /\ e = map PrimFloat.sqrt st.2).
Proof.
  unfold photometry_main. intros H. apply bind_ok in H as (st & Hloop & H).
  exists st. split; [assumption|].
  destruct error; injection H as <-; simpl; split; try reflexivity;
    intros f e [= <- <-] || intros f e [=]; auto.
Qed.

Lemma photometry_main_nan (flux : array1) (t : phot_tuple) (i : nat) :
  length flux = length positions ->
  main flux zeros = Ok t -> flux !! i = Some nan ->
  phot_flux t !! i = Some nan /\
  (forall f e, t = Tuple2 f e -> e !! i = Some 0%float).
Proof.
  intros Hlen H Hi. apply photometry_main_inv in H as (st & Hloop & -> & Ht).
  destruct (photometry_loop_keeps_nan _ _ _ _ _ _ _ _ _ i nan _ _
              Hloop Hi is_nan_nan) as [E1 E2].
  split; [assumption|]. intros f e Hfe. destruct (Ht f e Hfe) as [_ ->].
  rewrite lookup_map, E2. simpl.
  rewrite (proj2 (lookup_replicate _ 0%float 0%float i)); [reflexivity|].
  split; [reflexivity|]. apply lookup_lt_Some in Hi. lia.
Qed.


Lemma marked_flux_length (ood : list bool) (n : nat) :
  length ood = n -> length (marked_flux ood n) = n.
Proof.
  intros Hlen. unfold marked_flux.
  rewrite length_zip_with, length_replicate. lia.
Qed.

(** A flagged position of a returning call: NaN flux, zero flux error. *)
Lemma do_photometry_flagged (w : list warning) (t : phot_tuple) (i : nat) :
  photometer = (w, Ok t) -> ood_filter ext !! i = Some true ->
  phot_flux t !! i = Some nan /\
  (forall f e, t = Tuple2 f e -> e !! i = Some 0%float).
Proof.
  intros H Hi.
  apply do_photometry_ok_cases in H
    as [[E0 _] | (_ & Hlen & [[_ ->] | [_ Hmain]])].
  - now apply np_count_zero_lookup with (i := i) in E0.
  - assert (i < length positions) as Hlt
      by (apply lookup_lt_Some in Hi; lia).
    split; [apply (lookup_marked_flux _ _ _ true Hlt Hi) | discriminate].
  - assert (i < length positions) as Hlt
      by (apply lookup_lt_Some in Hi; lia).
    eapply photometry_main_nan; [|exact Hmain|].
    + now apply marked_flux_length.
    + apply (lookup_marked_flux _ _ _ true Hlt Hi).
Qed.


Lemma photometry_main_returns (flux : array1) :
  (forall i x, flux !! i = Some x -> is_nan x = false ->
     is_ok (measure_at i)) ->
  exists t, main flux zeros = Ok t.
Proof.
  intros Hflux.
  destruct (photometry_loop_spec overlap data ext error gain pixelwise_error
              (resolve_method method subpixels).1
              (resolve_method method subpixels).2
              (seq 0 (length flux)) (flux, zeros) (NoDup_seq _ _))
    as (st & Hloop & _).
  - intros i Hi. apply elem_of_seq in Hi.
    destruct (lookup_lt_is_Some_2 flux i ltac:(lia)) as [x Hx].
    exists x. split; [exact Hx|]. now apply (Hflux i x).
  - unfold photometry_main. rewrite Hloop. simpl. destruct error; eauto.
Qed.

(** The photometer returns as soon as the mask fits the positions (or
    flags none) and every position that is not flagged can be
    measured. *)
Lemma do_photometry_returns :
  np_count (ood_filter ext) = 0 \/
  length (ood_filter ext) = length positions ->
  (forall i, i < length positions -> ood_filter ext !! i <> Some true ->
     is_ok (measure_at i)) ->
  exists w t, photometer = (w, Ok t).
Proof.
  intros Hfit Hmeasure.
  unfold do_photometry, quiet, np_setmask, np_getmask.
  rewrite length_replicate.
  destruct (Nat.eqb_spec (np_count (ood_filter ext)) 0) as [E0|E0]; simpl.
  - destruct (photometry_main_returns zeros) as [t ->]; [|eauto].
    intros i x Hx _. apply Hmeasure.
    + apply lookup_lt_Some in Hx. now rewrite length_replicate in Hx.
    + now apply np_count_zero_lookup.
  - destruct Hfit as [?|Hlen]; [contradiction|].
    rewrite Hlen, Nat.eqb_refl. simpl.
    fold (marked_flux (ood_filter ext) (length positions)).
    destruct (Nat.eqb_spec (np_count (ood_filter ext)) (length positions));
      [eauto|].
    destruct (photometry_main_returns
                (marked_flux (ood_filter ext) (length positions)))
      as [t ->]; [|eauto].
    intros i x Hx Hnan.
    assert (i < length positions) as Hlt.
    { apply lookup_lt_Some in Hx.
      now rewrite (marked_flux_length _ _ Hlen) in Hx. }
    destruct (lookup_lt_is_Some_2 (ood_filter ext) i ltac:(lia)) as [b Hb].
    rewrite (lookup_marked_flux _ _ _ b Hlt Hb) in Hx. injection Hx as <-.
    destruct b; [now rewrite is_nan_nan in Hnan|].
    apply Hmeasure; [assumption | congruence].
Qed.

End PhotometerInversion.




(** X9: whenever [do_circular_photometry] or [do_elliptical_photometry]
    returns, a position that is flagged out-of-data has flux NaN and,
    when flux errors are returned, flux error 0. *)
Theorem flagged_position_is_nan :
  forall co eo (g : geometry) data positions ext error gain pixelwise_error
         method subpixels w t (i : nat),
  single_aperture co eo g data positions ext error gain pixelwise_error
                  method subpixels = (w, Ok t) ->
  ood_filter ext !! i = Some true ->
  phot_flux t !! i = Some nan /\
  (forall f e, t = Tuple2 f e -> e !! i = Some 0%float).
Proof.
  intros co eo g data positions ext error gain pw method subpixels w t i.
  rewrite single_aperture_photometer. apply do_photometry_flagged.
Qed.

Lemma flagged_position_is_nan_witness :
  [9%float; nan] !! 1 = Some nan /\
  (forall f e, Tuple2 [9%float; nan] [6%float; 0%float] = Tuple2 f e ->
     e !! 1 = Some 0%float).
Proof.
  apply (flagged_position_is_nan sample_circular sample_elliptical
           (Circle 2) (image3 1) two_positions (extents_of [false; true])
           (Some (image3 2)) None true "exact" 5
           [AstropyUserWarning [(9, 9)%float]]
           (Tuple2 [9%float; nan] [6%float; 0%float]) 1);
    reflexivity.
Defined.



Lemma well_formed_measurable co eo (g : geometry) data positions ext error
  gain pixelwise_error use_exact subpixels (H W i : nat) :
  conforming co eo ->
  well_formed_call data positions ext error gain pixelwise_error H W ->
  i < length positions ->
  is_ok (measure (overlap_of co eo g) data ext error gain pixelwise_error
                 use_exact subpixels i).
Proof.
  intros Hgrid (Hdata & Herr & Lood & Lx0 & Lx1 & Ly0 & Ly1 & Lxp0 & Lxp1 &
                Lyp0 & Lyp1 & Bx & By) Hi.
  destruct (lookup_lt_is_Some_2 (x_min ext) i ltac:(lia)) as [x0 Hx0].
  destruct (lookup_lt_is_Some_2 (x_max ext) i ltac:(lia)) as [x1 Hx1].
  destruct (lookup_lt_is_Some_2 (y_min ext) i ltac:(lia)) as [y0 Hy0].
  destruct (lookup_lt_is_Some_2 (y_max ext) i ltac:(lia)) as [y1 Hy1].
  destruct (lookup_lt_is_Some_2 (x_pmin ext) i ltac:(lia)) as [xp0 Hxp0].
  destruct (lookup_lt_is_Some_2 (x_pmax ext) i ltac:(lia)) as [xp1 Hxp1].
  destruct (lookup_lt_is_Some_2 (y_pmin ext) i ltac:(lia)) as [yp0 Hyp0].
  destruct (lookup_lt_is_Some_2 (y_pmax ext) i ltac:(lia)) as [yp1 Hyp1].
  destruct (Bx i x0 x1 Hx0 Hx1) as [Bx0 Bx1].
  destruct (By i y0 y1 Hy0 Hy1) as [By0 By1].
  destruct (measure_window_returns (overlap_of co eo g) data ext error gain
              pixelwise_error use_exact subpixels i H W
              xp0 xp1 yp0 yp1 x0 x1 y0 y1)
    as (m & -> & _); auto. exact I.
Qed.

(** X11: a photometer never raises on a well-formed call
    ([well_formed_call], with overlap primitives that are [conforming]):
    it returns. *)
Theorem photometer_returns_on_well_formed_input :
  forall co eo (g : geometry) data positions ext error gain pixelwise_error
         method subpixels (H W : nat),
  conforming co eo ->
  well_formed_call data positions ext error gain pixelwise_error H W ->
  exists w t,
    single_aperture co eo g data positions ext error gain pixelwise_error
                    method subpixels
    = (w, Ok t).
Proof.
  intros co eo g data positions ext error gain pw method subpixels H W
         Hgrid Hwf.
  rewrite single_aperture_photometer.
  apply do_photometry_returns; [right; apply Hwf|].
  intros i Hi _.
  exact (well_formed_measurable co eo g data positions ext error gain pw
           _ _ H W i Hgrid Hwf Hi).
Qed.

Lemma sample_overlap_grid_shape (size : float) (nx ny : Z) :
  has_shape (sample_overlap_grid size nx ny) (Z.to_nat ny) (Z.to_nat nx).
Proof.
  unfold sample_overlap_grid. split; [apply length_replicate|].
  apply Forall_replicate, length_replicate.
Qed.

Lemma sample_conforming : conforming sample_circular sample_elliptical.
Proof. intros [r|a b theta]; intros; apply sample_overlap_grid_shape. Qed.

Lemma sample_well_formed (ood : list bool) :
  length ood = 2 ->
  well_formed_call (image3 1) two_positions (extents_of ood)
                   (Some (image3 2)) (Some (image3 4)) true 3 3.
Proof.
  intros Hood. unfold well_formed_call.
  split; [split; [reflexivity | repeat constructor]|].
  split; [split; [reflexivity|];
          split; split; try reflexivity; repeat constructor|].
  split; [exact Hood|]. do 8 (split; [reflexivity|]).
  split; intros [|[|i]] lo hi [= <-] [= <-]; lia.
Qed.

Lemma photometer_returns_on_well_formed_input_witness :
  exists w t,
    single_aperture sample_circular sample_elliptical (Ellipse 1 1 0)
                    (image3 1) two_positions (extents_of [false; true])
                    (Some (image3 2)) (Some (image3 4)) true "center" 5
    = (w, Ok t).
Proof.
  apply (photometer_returns_on_well_formed_input sample_circular
           sample_elliptical (Ellipse 1 1 0) (image3 1) two_positions
           (extents_of [false; true]) (Some (image3 2)) (Some (image3 4))
           true "center" 5 3 3 sample_conforming (sample_well_formed [false; true] eq_refl)).
Defined.

(** ** Flagged positions and well-formed calls of the annulus composer *)

(** X14: in a returning annulus call a position that is flagged
    out-of-data has flux NaN and, with an error map, flux error 0. *)
Theorem annulus_flagged_position_is_nan :
  forall co eo data positions ext (g_in g_out : geometry) error gain
         pixelwise_error method subpixels w t (i : nat),
  mode_of g_in = mode_of g_out ->
  do_annulus_photometry co eo data positions (mode_of g_out) ext
                        (params_of g_in) (params_of g_out) error gain
                        pixelwise_error method subpixels = (w, Ok t) ->
  ood_filter ext !! i = Some true ->
  phot_flux t !! i = Some nan /\
  (forall f e, t = Tuple2 f e -> e !! i = Some 0%float).
Proof.
  intros co eo data positions ext g_in g_out error gain pw method subpixels
         w t i Hmode Hcall Hood.
  destruct (annulus_singles _ _ _ _ _ _ _ _ _ _ _ _ _ _ Hmode Hcall)
    as (w_o & t_o & w_i & t_i & Ho & Hi & Ht).
  rewrite single_aperture_photometer in Ho, Hi.
  destruct (do_photometry_flagged _ _ _ _ _ _ _ _ _ _ _ i Ho Hood)
    as [Fo Eo].
  destruct (do_photometry_flagged _ _ _ _ _ _ _ _ _ _ _ i Hi Hood)
    as [Fi Ei].
  pose proof (annulus_of_tuples_ok _ _ _ _ Ht) as [Hflux Herr]. split.
  - rewrite Hflux, lookup_zip_with, Fo. simpl. now rewrite Fi.
  - intros f e ->.
    destruct error as [err|].
    + destruct (Herr ltac:(discriminate))
        as (f_o & e_o & f_i & e_i & -> & -> & _ & [= -> ->]).
      rewrite lookup_map, lookup_zip_with.
      rewrite (Eo _ _ eq_refl). simpl. now rewrite (Ei _ _ eq_refl).
    + unfold annulus_of_tuples, annulus_return in Ht.
      apply bind_ok in Ht as (flux & _ & Ht). discriminate.
Qed.

Lemma annulus_flagged_position_is_nan_witness :
  [6.75%float; nan] !! 1 = Some nan /\
  (forall f e,
     Tuple2 [6.75%float; nan] [PrimFloat.sqrt 27; 0%float] = Tuple2 f e ->
     e !! 1 = Some 0%float).
Proof.
  apply (annulus_flagged_position_is_nan sample_circular sample_elliptical
           (image3 1) two_positions (extents_of [false; true])
           (Circle 1) (Circle 2) (Some (image3 2)) None true "exact" 5
           [AstropyUserWarning [(9, 9)%float];
            AstropyUserWarning [(9, 9)%float]]
           (Tuple2 [6.75%float; nan] [PrimFloat.sqrt 27; 0%float]) 1);
    reflexivity.
Defined.

Lemma do_photometry_pair overlap data positions ext error gain
  pixelwise_error method subpixels (w : list warning) (t : phot_tuple) :
  do_photometry overlap data positions ext error gain pixelwise_error
                method subpixels = (w, Ok t) ->
  error <> None ->
  np_count (ood_filter ext) = 0 \/
  np_count (ood_filter ext) <> length positions ->
  phot_len t = 2.
Proof.
  intros H Herr Hcount.
  assert (forall flux : array1,
            length flux = length positions ->
            photometry_main overlap data ext error gain pixelwise_error
                            method subpixels flux
                            (replicate (length positions) 0%float) = Ok t ->
            phot_len t = 2) as Hmain.
  { intros flux Hlen Hm.
    apply photometry_main_shape in Hm as (_ & _ & ->);
      [|now rewrite length_replicate].
    destruct error; [reflexivity | contradiction]. }
  apply do_photometry_ok_cases in H
    as [[_ Hm] | (E0 & Hlen & [[En _] | [_ Hm]])].
  - apply (Hmain _ (length_replicate _ _) Hm).
  - destruct Hcount; contradiction.
  - apply (Hmain _ (marked_flux_length _ _ Hlen) Hm).
Qed.

(** X15: the annulus composer never raises on a well-formed call with
    inner and outer geometry of one shape family, unless an error map is
    given and every one of at least one position is flagged: it
    returns. *)
Theorem annulus_returns_on_well_formed_input :
  forall co eo data positions ext (g_in g_out : geometry) error gain
         pixelwise_error method subpixels (H W : nat),
  conforming co eo ->
  well_formed_call data positions ext error gain pixelwise_error H W ->
  mode_of g_in = mode_of g_out ->
  error = None \/
  np_count (ood_filter ext) = 0 \/
  np_count (ood_filter ext) <> length positions ->
  exists w t,
    do_annulus_photometry co eo data positions (mode_of g_out) ext
                          (params_of g_in) (params_of g_out) error gain
                          pixelwise_error method subpixels
    = (w, Ok t).
Proof.
  intros co eo data positions ext g_in g_out error gain pw method subpixels
         H W Hgrid Hwf Hmode Hcase.
  assert (forall g, exists w t,
            single_aperture co eo g data positions ext error gain pw
                            method subpixels
            = (w, Ok t)) as Hsingle.
  { intros g. rewrite single_aperture_photometer.
    apply do_photometry_returns; [right; apply Hwf|].
    intros i Hi _.
    exact (well_formed_measurable co eo g data positions ext error gain pw
             _ _ H W i Hgrid Hwf Hi). }
  destruct (Hsingle g_out) as (w_o & t_o & Ho).
  destruct (Hsingle g_in) as (w_i & t_i & Hi).
  destruct (annulus_returns _ _ _ _ _ _ _ _ _ _ _ _ _ _ _ _ Hmode Ho Hi)
    as (w & t & Hcall & _).
  { destruct Hcase as [->|Hcount]; [now left|].
    destruct error as [err|]; [right | now left].
    rewrite single_aperture_photometer in Ho, Hi.
    split; eapply do_photometry_pair; eauto; discriminate. }
  now exists w, t.
Qed.

Lemma annulus_returns_on_well_formed_input_witness :
  exists w t,
    do_annulus_photometry sample_circular sample_elliptical (image3 1)
                          two_positions "circular" (extents_of [false; true])
                          [1%float] [2%float] (Some (image3 2))
                          (Some (image3 4)) true "subpixel" 5
    = (w, Ok t).
Proof.
  apply (annulus_returns_on_well_formed_input sample_circular
           sample_elliptical (image3 1) two_positions
           (extents_of [false; true]) (Circle 1) (Circle 2)
           (Some (image3 2)) (Some (image3 4)) true "subpixel" 5 3 3
           sample_conforming (sample_well_formed [false; true] eq_refl) eq_refl).
  right. right. simpl. lia.
Defined.
